(** * Technical Analysis Engine: [tools/yf_tech_analysis.py]

    A shallow embedding of [YFinanceTechnicalAnalysisTool] and of the
    properties its specification states about it.

    Conventions of the embedding.
    - A price is a NumPy [float64].  It is modelled as a rational number or
      the not-a-number marker: arithmetic is exact (no rounding), there is no
      signed zero, and a non-finite quotient is represented by [NaN].
    - Python exceptions are values of [exn]; code that may raise lives in the
      monad [res], and the body of [_run], which also assigns columns of the
      local frame [history], in the state-and-exception monad [M].
    - The market-data provider and the two indicator libraries are external
      collaborators: the engine takes them as a record [collaborators].
    - [scipy.signal.find_peaks] and the RSI of the indicator libraries are
      modelled from the specification. *)

From Stdlib Require Import QArith Qabs ZArith Lia Lqa.
From stdpp Require Import base option list sorting strings gmap.

Local Open Scope string_scope.
Local Open Scope Z_scope.
Local Open Scope nat_scope.
Local Open Scope list_scope.

(** ** Floating-point values *)

Inductive float : Type :=
| NaN : float
| Fin (q : Q) : float.

Definition Qlt_bool (x y : Q) : bool :=
  (Qnum x * Zpos (Qden y) <? Qnum y * Zpos (Qden x))%Z.

(** [a < b] on floats: false as soon as one side is not a number. *)
Definition flt (a b : float) : bool :=
  match a, b with
  | Fin x, Fin y => Qlt_bool x y
  | _, _ => false
  end.

(** [a > b]. *)
Definition fgt (a b : float) : bool := flt b a.

(** [a == b]. *)
Definition feq (a b : float) : bool :=
  match a, b with
  | Fin x, Fin y => Qeq_bool x y
  | _, _ => false
  end.

(** [-a]. *)
Definition fneg (a : float) : float :=
  match a with
  | Fin x => Fin (- x)
  | NaN => NaN
  end.

(** [a - b]. *)
Definition fsub (a b : float) : float :=
  match a, b with
  | Fin x, Fin y => Fin (x - y)
  | _, _ => NaN
  end.

(** [abs(a)]. *)
Definition fabs (a : float) : float :=
  match a with
  | Fin x => Fin (Qabs x)
  | NaN => NaN
  end.

(** [a / b].  NumPy scalars do not raise on a zero divisor: the quotient is
    infinite or not a number, and is represented by [NaN] here. *)
Definition fdiv (a b : float) : float :=
  match a, b with
  | Fin x, Fin y => if Qeq_bool y 0 then NaN else Fin (x / y)
  | _, _ => NaN
  end.

(** ** Exceptions and the exception monad *)

(** The two handlers of [_run] distinguish [IndexError] from every other
    exception deriving from [Exception]; [str(e)] is the carried message. *)
Inductive exn : Type :=
| IndexError (msg : string)
| OtherException (msg : string).

Inductive res (A : Type) : Type :=
| Ok (a : A)
| Raise (e : exn).
Arguments Ok {A} a.
Arguments Raise {A} e.

#[export] Instance res_ret : MRet res := fun A a => Ok a.
#[export] Instance res_bind : MBind res := fun A B f m =>
  match m with
  | Ok a => f a
  | Raise e => Raise e
  end.

(** ** Sequences: indexing and slicing *)

(** [a[i]] for a Python list or a NumPy array: a negative index counts from
    the end, and an index outside [-len(a) .. len(a)-1] raises [IndexError]. *)
Definition getitem {A : Type} (a : list A) (i : Z) : res A :=
  let n := Z.of_nat (length a) in
  let j := if (i <? 0)%Z then (n + i)%Z else i in
  if ((0 <=? j) && (j <? n))%Z then
    match a !! Z.to_nat j with
    | Some x => Ok x
    | None => Raise (IndexError "index out of bounds")
    end
  else Raise (IndexError "index out of bounds").
Arguments getitem : simpl never.

(** [a[idx]] where [idx] is an integer array (NumPy fancy indexing). *)
Fixpoint take_indices {A : Type} (a : list A) (idx : list nat) : res (list A) :=
  match idx with
  | [] => Ok []
  | i :: rest =>
      x ← getitem a (Z.of_nat i);
      xs ← take_indices a rest;
      mret (x :: xs)
  end.

(** [a[-k:]]: the last [k] elements, all of them when there are fewer. *)
Definition lastn {A : Type} (k : nat) (a : list A) : list A :=
  drop (length a - k) a.

(** ** Extrema detection *)

(** Modelled from the spec: part of [scipy.signal.find_peaks], which is not
    under src/.  [falls_after v rest]: skipping the samples equal to [v] (the
    rest of a plateau), the next sample exists and is strictly smaller than
    [v]. *)
Fixpoint falls_after (v : float) (rest : list float) : bool :=
  match rest with
  | [] => false
  | y :: rest' => if feq y v then falls_after v rest' else flt y v
  end.

(** Modelled from the spec: part of [scipy.signal.find_peaks], which is not
    under src/.  The candidates among the samples [xs], the first of which has
    index [i] and the left neighbour [prev]. *)
Fixpoint candidates_from (i : nat) (prev : float) (xs : list float) : list nat :=
  match xs with
  | [] => []
  | x :: rest =>
      if flt prev x && falls_after x rest
      then i :: candidates_from (S i) x rest
      else candidates_from (S i) x rest
  end.

(** Modelled from the spec: the candidate stage of
    [scipy.signal.find_peaks], which is not under src/.  A candidate peak is
    an index whose sample is strictly greater than its immediate neighbours;
    of a tied plateau the first index is the candidate. *)
Definition local_maxima (x : list float) : list nat :=
  match x with
  | [] => []
  | x0 :: rest => candidates_from 1 x0 rest
  end.

(** [x[i]], with [NaN] when [i] is not an index of [x]. *)
Definition sample (x : list float) (i : nat) : float := default NaN (x !! i).

(** Modelled from the spec: the filtering stage of
    [scipy.signal.find_peaks], which is not under src/.  Candidates are
    filtered left to right; [kept] holds the survivors so far, the most recent
    first.  A candidate closer than [distance] to the most recent survivor
    competes with it: the higher sample survives, the earlier index on a
    tie. *)
Fixpoint filter_distance (x : list float) (distance : nat)
    (kept : list nat) (cands : list nat) : list nat :=
  match cands with
  | [] => rev kept
  | c :: cs =>
      match kept with
      | [] => filter_distance x distance [c] cs
      | s :: ss =>
          if c - s <? distance then
            if flt (sample x s) (sample x c)
            then filter_distance x distance (c :: ss) cs
            else filter_distance x distance (s :: ss) cs
          else filter_distance x distance (c :: s :: ss) cs
      end
  end.

(** Modelled from the spec: [scipy.signal.find_peaks(x, distance=d)], which
    is not under src/: the candidates of [x], filtered left to right so that
    no two survivors lie closer than [distance]. *)
Definition find_peaks (x : list float) (distance : nat) : list nat :=
  filter_distance x distance [] (local_maxima x).

(** [-close]. *)
Definition negate (x : list float) : list float := map fneg x.

(** ** Chart patterns *)

(** The literal [0.03]. *)
Definition threshold : float := Fin (3 # 100).

(** [is_head_and_shoulders(close)].  Python's [and] reads
    [close[right_shoulder]] only when the first comparison holds. *)
Definition is_head_and_shoulders (close : list float) : res bool :=
  let peaks := find_peaks close 20 in
  if 3 <=? length peaks then
    left_shoulder ← getitem peaks (-3)%Z;
    head ← getitem peaks (-2)%Z;
    right_shoulder ← getitem peaks (-1)%Z;
    ch ← getitem close (Z.of_nat head);
    cl ← getitem close (Z.of_nat left_shoulder);
    if fgt ch cl then
      ch' ← getitem close (Z.of_nat head);
      cr ← getitem close (Z.of_nat right_shoulder);
      if fgt ch' cr then mret true else mret false
    else mret false
  else mret false.

(** The test shared by the two double patterns, on the extrema [ext]:
    [abs(close[ext[-1]] - close[ext[-2]]) / close[ext[-2]] < 0.03]. *)
Definition within_threshold (close : list float) (ext : list nat) : res bool :=
  i1 ← getitem ext (-1)%Z;
  c1 ← getitem close (Z.of_nat i1);
  i2 ← getitem ext (-2)%Z;
  c2 ← getitem close (Z.of_nat i2);
  i2' ← getitem ext (-2)%Z;
  c2' ← getitem close (Z.of_nat i2');
  mret (flt (fdiv (fabs (fsub c1 c2)) c2') threshold).

(** [is_double_top(close)]. *)
Definition is_double_top (close : list float) : res bool :=
  let peaks := find_peaks close 20 in
  if 2 <=? length peaks then
    b ← within_threshold close peaks;
    if (b : bool) then mret true else mret false
  else mret false.

(** [is_double_bottom(close)]. *)
Definition is_double_bottom (close : list float) : res bool :=
  let troughs := find_peaks (negate close) 20 in
  if 2 <=? length troughs then
    b ← within_threshold close troughs;
    if (b : bool) then mret true else mret false
  else mret false.

(** ** The frame [history] *)

(** One row of the frame returned by the market-data provider. *)
Record bar : Type := mkBar {
  Open : float;
  High : float;
  Low : float;
  Close : float;
  Volume : float
}.

(** A cell of a derived column: [None], a float, or a string. *)
Inductive cell : Type :=
| CNone
| CFloat (x : float)
| CStr (s : string).

(** [history]: the provider's rows and the columns assigned by [_run]. *)
Record frame : Type := mkFrame {
  bars : list bar;
  derived : gmap string (list cell)
}.

(** [history[name].values] for a provider column. *)
Definition column (field : bar → float) (history : frame) : list float :=
  map field (bars history).

Definition isnan (x : float) : bool :=
  match x with NaN => true | Fin _ => false end.

(** [Series.dropna()]. *)
Definition dropna (s : list float) : list float :=
  List.filter (λ x, negb (isnan x)) s.

(** [Series.isnull()], cell by cell. *)
Definition isnull (c : cell) : bool :=
  match c with
  | CNone => true
  | CFloat x => isnan x
  | CStr _ => false
  end.

(** [identify_chart_patterns(history)]. *)
Definition identify_chart_patterns (history : frame) : res (list string) :=
  let patterns : list string := [] in
  let close := column Close history in
  hs ← is_head_and_shoulders close;
  let patterns := if (hs : bool) then (patterns ++ ["Head and Shoulders"])%list else patterns in
  dt ← is_double_top close;
  let patterns := if (dt : bool) then (patterns ++ ["Double Top"])%list else patterns in
  db ← is_double_bottom close;
  let patterns := if (db : bool) then (patterns ++ ["Double Bottom"])%list else patterns in
  mret patterns.

(** ** The state-and-exception monad of [_run] *)

(** A computation reads and updates the frame; on an exception the frame
    keeps the assignments made so far. *)
Definition M (A : Type) : Type := frame → res A * frame.

#[export] Instance M_ret : MRet M := fun A a h => (Ok a, h).
#[export] Instance M_bind : MBind M := fun A B f m h =>
  match m h with
  | (Ok a, h') => f a h'
  | (Raise e, h') => (Raise e, h')
  end.

Definition lift {A : Type} (r : res A) : M A := fun h => (r, h).

Definition get_history : M frame := fun h => (Ok h, h).

(** [history[name] = series]. *)
Definition setitem (name : string) (series : list cell) : M unit :=
  fun h => (Ok tt, mkFrame (bars h) (<[name := series]> (derived h))).

(** [history[name] = scalar]: the scalar fills the column. *)
Definition setitem_scalar (name : string) (scalar : cell) : M unit :=
  fun h => (Ok tt, mkFrame (bars h)
                     (<[name := replicate (length (bars h)) scalar]> (derived h))).

(** [history[name] = value] where [value] is a Series or [None]. *)
Definition setitem_opt (name : string) (value : option (list cell)) : M unit :=
  match value with
  | Some series => setitem name series
  | None => setitem_scalar name CNone
  end.

(** [history[name]] for a derived column; [KeyError] when it is missing. *)
Definition getcol (name : string) : M (list cell) :=
  fun h => match derived h !! name with
           | Some c => (Ok c, h)
           | None => (Raise (OtherException name), h)
           end.

(** [history[name].iloc[-1] if not history[name].isnull().all() else None]. *)
Definition current (name : string) : M cell :=
  c ← getcol name;
  if negb (forallb isnull c) then
    c' ← getcol name;
    lift (getitem c' (-1)%Z)
  else mret CNone.

(** [history[name].values] read inside the body of [_run]. *)
Definition read (field : bar → float) : M (list float) :=
  fun h => (Ok (column field h), h).

(** ** External collaborators *)

(** The value of the module-level [_ta_backend]. *)
Inductive backend : Type := pandas_ta | ta.

(** The three series held by a [ta.trend.MACD] object. *)
Record MACD : Type := mkMACD {
  macd : list cell;
  macd_signal : list cell;
  macd_diff : list cell
}.

(** What [_run] calls outside the repository.  Every call may raise; the
    functions of [pandas_ta] return [None] on an input they reject, and
    [pta.macd] returns a frame, given here by its labelled columns. *)
Record collaborators : Type := mkCollaborators {
  yf_history : string → string → res (list bar);
  _ta_backend : option backend;
  pta_sma : list float → nat → res (option (list cell));
  pta_rsi : list float → nat → res (option (list cell));
  pta_macd : list float → nat → nat → nat → res (option (list (string * list cell)));
  pta_atr : list float → list float → list float → nat → res (option (list cell));
  rolling_mean : list float → nat → res (list cell);
  ta_RSIIndicator_rsi : list float → nat → res (list cell);
  ta_MACD : list float → nat → nat → nat → res MACD;
  ta_AverageTrueRange : list float → list float → list float → nat → res (list cell)
}.

(** ** The result of [_run] *)

Inductive pyval : Type :=
| VCell (c : cell)
| VFloats (l : list float)
| VStrs (l : list string).

(** A Python [dict] literal: its items in the order they are written. *)
Definition dict : Type := list (string * pyval).

Definition keys (d : dict) : list string := map fst d.

Definition error_dict (msg : string) : dict := [("error", VCell (CStr msg))].

Definition insufficient_data_msg : string :=
  "Insufficient data for technical analysis. At least 50 data points are required.".

Definition no_backend_msg : string :=
  "Neither 'pandas_ta' nor 'ta' libraries are installed. Please install one: `pip install ta` (recommended) or `pip install pandas-ta`.".

Definition index_error_msg : string :=
  "Index error: Ensure sufficient data for technical analysis.".

Definition unexpected_msg (e : string) : string :=
  ("An unexpected error occurred: " ++ e)%string.

(** The keys of a full report, in the order of the literal. *)
Definition report_keys : list string :=
  ["ticker"; "current_price"; "sma_50"; "sma_200"; "rsi"; "macd"; "atr";
   "support_levels"; "resistance_levels"; "identified_patterns"].

(** ** The body of [_run] *)

(** [a, b, c = value]: iterating a frame yields its column labels; [None] is
    not iterable ([TypeError]); another number of items is a [ValueError]. *)
Definition unpack3 (value : option (list (string * list cell)))
  : res (string * string * string) :=
  match value with
  | None => Raise (OtherException "cannot unpack non-iterable NoneType object")
  | Some cols =>
      match map fst cols with
      | [a; b; c] => Ok (a, b, c)
      | _ => Raise (OtherException "wrong number of values to unpack")
      end
  end.

(** [history.empty]. *)
Definition empty (history : frame) : bool :=
  match bars history with [] => true | _ => false end.

(** [close_prices[extrema][-3:] if len(extrema) >= 3 else close_prices[extrema]]. *)
Definition levels (close_prices : list float) (extrema : list nat) : res (list float) :=
  if 3 <=? length extrema then
    a ← take_indices close_prices extrema;
    mret (lastn 3 a)
  else take_indices close_prices extrema.

(** [levels.tolist() if len(levels) > 0 else []]. *)
Definition tolist (lv : list float) : list float :=
  if 0 <? length lv then lv else [].

Section Engine.
Context (lib : collaborators).

(** The branch [_ta_backend == "pandas_ta"]. *)
Definition indicators_pandas_ta : M unit :=
  close ← read Close;
  v ← lift (pta_sma lib close 50);
  setitem_opt "SMA_50" v;;
  close ← read Close;
  v ← lift (pta_sma lib close 200);
  setitem_opt "SMA_200" v;;
  close ← read Close;
  v ← lift (pta_rsi lib close 14);
  setitem_opt "RSI" v;;
  close ← read Close;
  v ← lift (pta_macd lib close 12 26 9);
  '(a, b, c) ← lift (unpack3 v);
  setitem_scalar "MACD" (CStr a);;
  setitem_scalar "MACD_SIGNAL" (CStr b);;
  setitem_scalar "MACD_HIST" (CStr c);;
  high ← read High;
  low ← read Low;
  close ← read Close;
  v ← lift (pta_atr lib high low close 14);
  setitem_opt "ATR" v.

(** The branch [_ta_backend == "ta"]. *)
Definition indicators_ta : M unit :=
  close ← read Close;
  v ← lift (rolling_mean lib close 50);
  setitem "SMA_50" v;;
  close ← read Close;
  v ← lift (rolling_mean lib close 200);
  setitem "SMA_200" v;;
  close ← read Close;
  v ← lift (ta_RSIIndicator_rsi lib close 14);
  setitem "RSI" v;;
  close ← read Close;
  m ← lift (ta_MACD lib close 26 12 9);
  setitem "MACD" (macd m);;
  setitem "MACD_SIGNAL" (macd_signal m);;
  setitem "MACD_HIST" (macd_diff m);;
  high ← read High;
  low ← read Low;
  close ← read Close;
  v ← lift (ta_AverageTrueRange lib high low close 14);
  setitem "ATR" v.

(** From [# Get the current values of indicators] to the report. *)
Definition report (ticker : string) : M dict :=
  close ← read Close;
  current_price ← lift (getitem close (-1)%Z);
  sma_50_current ← current "SMA_50";
  sma_200_current ← current "SMA_200";
  rsi_current ← current "RSI";
  macd_current ← current "MACD";
  atr_current ← current "ATR";
  close ← read Close;
  let close_prices := dropna close in
  let peaks := find_peaks close_prices 20 in
  let troughs := find_peaks (negate close_prices) 20 in
  support_levels ← lift (levels close_prices troughs);
  resistance_levels ← lift (levels close_prices peaks);
  history ← get_history;
  patterns ← lift (identify_chart_patterns history);
  mret [("ticker", VCell (CStr ticker));
        ("current_price", VCell (CFloat current_price));
        ("sma_50", VCell sma_50_current);
        ("sma_200", VCell sma_200_current);
        ("rsi", VCell rsi_current);
        ("macd", VCell macd_current);
        ("atr", VCell atr_current);
        ("support_levels", VFloats (tolist support_levels));
        ("resistance_levels", VFloats (tolist resistance_levels));
        ("identified_patterns", VStrs patterns)].

(** The [try] block of [_run] once [history] is fetched. *)
Definition analysis (ticker : string) : M dict :=
  history ← get_history;
  if empty history || (length (bars history) <? 50) then
    mret (error_dict insufficient_data_msg)
  else
    match _ta_backend lib with
    | Some pandas_ta => indicators_pandas_ta;; report ticker
    | Some ta => indicators_ta;; report ticker
    | None => mret (error_dict no_backend_msg)
    end.

(** The two [except] clauses. *)
Definition handlers (body : res dict) : res dict :=
  match body with
  | Ok d => Ok d
  | Raise (IndexError _) => Ok (error_dict index_error_msg)
  | Raise (OtherException e) => Ok (error_dict (unexpected_msg e))
  end.

(** The engine on a frame: the analysis under the handlers, and the frame
    as the analysis leaves it. *)
Definition engine (ticker : string) (history : frame) : res dict * frame :=
  let '(r, history') := analysis ticker history in (handlers r, history').

(** [_run(ticker, period)]. *)
Definition _run (ticker period : string) : res dict :=
  handlers (history ← yf_history lib ticker period;
            fst (analysis ticker (mkFrame history ∅))).
End Engine.

(** [current name] as a function of the column the frame holds for [name]. *)
Definition current_value (name : string) (col : option (list cell)) : res cell :=
  match col with
  | None => Raise (OtherException name)
  | Some c => if negb (forallb isnull c) then getitem c (-1)%Z else Ok CNone
  end.

(** [report ticker] as a function of the frame it reads. *)
Definition report_value (ticker : string) (history : frame) : res dict :=
  current_price ← getitem (column Close history) (-1)%Z;
  sma_50_current ← current_value "SMA_50" (derived history !! "SMA_50");
  sma_200_current ← current_value "SMA_200" (derived history !! "SMA_200");
  rsi_current ← current_value "RSI" (derived history !! "RSI");
  macd_current ← current_value "MACD" (derived history !! "MACD");
  atr_current ← current_value "ATR" (derived history !! "ATR");
  let close_prices := dropna (column Close history) in
  support_levels ← levels close_prices (find_peaks (negate close_prices) 20);
  resistance_levels ← levels close_prices (find_peaks close_prices 20);
  patterns ← identify_chart_patterns history;
  mret [("ticker", VCell (CStr ticker));
        ("current_price", VCell (CFloat current_price));
        ("sma_50", VCell sma_50_current);
        ("sma_200", VCell sma_200_current);
        ("rsi", VCell rsi_current);
        ("macd", VCell macd_current);
        ("atr", VCell atr_current);
        ("support_levels", VFloats (tolist support_levels));
        ("resistance_levels", VFloats (tolist resistance_levels));
        ("identified_patterns", VStrs patterns)].

(** The columns [report] reads agree in two frames. *)
Definition same_indicators (h1 h2 : frame) : Prop :=
  bars h1 = bars h2 ∧
  Forall (λ name, derived h1 !! name = derived h2 !! name)
         ["SMA_50"; "SMA_200"; "RSI"; "MACD"; "ATR"].

(** A computation that only assigns columns: on any frame it does what it
    does on the frame without derived columns, and adds the same columns. *)
Definition write_only {A : Type} (m : M A) : Prop :=
  ∀ (b : list bar) (d : gmap string (list cell)),
    m (mkFrame b d) =
    (fst (m (mkFrame b ∅)), mkFrame b (derived (snd (m (mkFrame b ∅))) ∪ d)).

(** The column [history[name] = value] stores, for a Series or [None]. *)
Definition stored (rows : nat) (value : option (list cell)) : list cell :=
  match value with
  | Some series => series
  | None => replicate rows CNone
  end.

(** An indicator branch: it only assigns columns, and when it succeeds the
    five columns read by [report] are among them. *)
Definition assigns_indicators (ind : M unit) : Prop :=
  write_only ind ∧
  ∀ h h', ind h = (Ok (), h') →
    Forall (λ name, is_Some (derived h' !! name))
           ["SMA_50"; "SMA_200"; "RSI"; "MACD"; "ATR"].

(** [d[key]] for a result dictionary. *)
Fixpoint dict_get (key : string) (d : dict) : option pyval :=
  match d with
  | [] => None
  | (k, v) :: rest => if String.eqb k key then Some v else dict_get key rest
  end.

(** The dictionary a run returned, or the empty one when it raised. *)
Definition returned (r : res dict) : dict :=
  match r with Ok d => d | Raise _ => [] end.

(** ** The rules as the specification words them *)

(** The price at index [i] strictly exceeds the price at index [j]. *)
Definition exceeds (close : list float) (i j : nat) : Prop :=
  ∃ a b : Q, close !! i = Some (Fin a) ∧ close !! j = Some (Fin b) ∧ (b < a)%Q.

(** HeadAndShoulders: at least three peaks, and of the last three, in index
    order, the middle one exceeds both others. *)
Definition HeadAndShoulders_rule (close : list float) : Prop :=
  ∃ (earlier : list nat) (leftShoulder head rightShoulder : nat),
    find_peaks close 20 = earlier ++ [leftShoulder; head; rightShoulder] ∧
    exceeds close head leftShoulder ∧ exceeds close head rightShoulder.

(** The relative difference of the prices at the last two extrema of [ext],
    normalised by the earlier of the two, is below 3%. *)
Definition within_3_percent (close : list float) (ext : list nat) : Prop :=
  ∃ (earlier : list nat) (first last : nat) (a b : Q),
    ext = earlier ++ [first; last] ∧
    close !! first = Some (Fin a) ∧ close !! last = Some (Fin b) ∧
    ¬ (a == 0)%Q ∧ (Qabs (b - a) / a < 3 # 100)%Q.

Definition DoubleTop_rule (close : list float) : Prop :=
  within_3_percent close (find_peaks close 20).

Definition DoubleBottom_rule (close : list float) : Prop :=
  within_3_percent close (find_peaks (negate close) 20).

(** No two points of [points] lie within [minDistance] of each other. *)
Definition min_distance (minDistance : nat) (points : list nat) : Prop :=
  ∀ (i j a b : nat), i ≠ j → points !! i = Some a → points !! j = Some b →
    a + minDistance ≤ b ∨ b + minDistance ≤ a.

(** [b] lies at least [d] after [a]. *)
Definition apart (d : nat) : relation nat := λ a b, a + d ≤ b.

(** The prices of the last three points of [extrema] in index order, or of
    all of them when there are fewer than three. *)
Definition last_three_prices (close_prices : list float) (extrema : list nat)
  : list float :=
  match rev extrema with
  | c :: b :: a :: _ =>
      [sample close_prices a; sample close_prices b; sample close_prices c]
  | _ => map (sample close_prices) extrema
  end.

(** The labels in the order [identify_chart_patterns] appends them. *)
Definition pattern_labels : list string :=
  ["Head and Shoulders"; "Double Top"; "Double Bottom"].

(** Every bar of the three MACD columns of [history] at which the line and
    the signal are not null holds numbers with histogram = line - signal. *)
Definition macd_hist_is_difference (history : frame) : Prop :=
  ∀ (line signal hist : list cell) (i : nat) (l s : cell),
    derived history !! "MACD" = Some line →
    derived history !! "MACD_SIGNAL" = Some signal →
    derived history !! "MACD_HIST" = Some hist →
    line !! i = Some l → signal !! i = Some s →
    isnull l = false → isnull s = false →
    ∃ a b c : Q, l = CFloat (Fin a) ∧ s = CFloat (Fin b) ∧
                 hist !! i = Some (CFloat (Fin c)) ∧ (c == a - b)%Q.

(** ** RSI *)

(** Modelled from the spec: the gain of a bar over the previous one, for the
    RSI of the indicator libraries, which are not under src/. *)
Definition gain (prev cur : Q) : Q :=
  if Qlt_bool prev cur then (cur - prev)%Q else 0%Q.

(** Modelled from the spec: the loss of a bar over the previous one, for the
    RSI of the indicator libraries, which are not under src/. *)
Definition loss (prev cur : Q) : Q :=
  if Qlt_bool cur prev then (prev - cur)%Q else 0%Q.

(** The bar-to-bar changes of a series, through [change]. *)
Fixpoint changes (change : Q → Q → Q) (prev : Q) (xs : list Q) : list Q :=
  match xs with
  | [] => []
  | x :: rest => change prev x :: changes change x rest
  end.

Definition Qsum (l : list Q) : Q := fold_right Qplus 0%Q l.

Definition Qnat (n : nat) : Q := inject_Z (Z.of_nat n).

Definition mean (l : list Q) : Q := (Qsum l / Qnat (length l))%Q.

(** Modelled from the spec: Wilder's recurrence, for the RSI of the
    indicator libraries, which are not under src/:
    [avg' = (avg * (n - 1) + x) / n]. *)
Fixpoint smooth (n : nat) (avg : Q) (xs : list Q) : list Q :=
  match xs with
  | [] => []
  | x :: rest =>
      let avg' := ((avg * Qnat (n - 1) + x) / Qnat n)%Q in
      avg' :: smooth n avg' rest
  end.

(** Modelled from the spec: Wilder's smoothing over a window of [n], for the
    RSI of the indicator libraries, which are not under src/: not available
    before [n] values are seen, then seeded with their mean. *)
Definition wilder (n : nat) (xs : list Q) : list (option Q) :=
  if length xs <? n then replicate (length xs) None
  else
    let seed := mean (take n xs) in
    replicate (n - 1) None ++ Some seed :: map Some (smooth n seed (drop n xs)).

(** Modelled from the spec: the RSI formula of the indicator libraries,
    which are not under src/: [RSI = 100 - 100 / (1 + RS)] with
    [RS = avg gain / avg loss], and [100] when the average loss is zero. *)
Definition rsi_value (avg_gain avg_loss : Q) : Q :=
  if Qeq_bool avg_loss 0 then 100%Q
  else (100 - 100 / (1 + avg_gain / avg_loss))%Q.

Definition rsi_at (g l : option Q) : option Q :=
  match g, l with
  | Some g, Some l => Some (rsi_value g l)
  | _, _ => None
  end.

(** Modelled from the spec: the RSI of the indicator libraries ([pta.rsi],
    [ta.momentum.RSIIndicator]), which are not under src/.  The series is
    aligned with the closes; [None] marks the warm-up. *)
Definition rsi (n : nat) (close : list Q) : list (option Q) :=
  match close with
  | [] => []
  | c0 :: rest =>
      None :: zip_with rsi_at (wilder n (changes gain c0 rest))
                              (wilder n (changes loss c0 rest))
  end.

(** ** Fixtures *)

Definition prices (l : list Z) : list float := map (λ z, Fin (inject_Z z)) l.

(** Peaks at indices 10, 30, 50 with prices 100, 120, 100. *)
Definition fixture_head_and_shoulders : list float :=
  prices [90; 91; 92; 93; 94; 95; 96; 97; 98; 99; 100;
          99; 98; 97; 96; 95; 94; 93; 92; 91; 90;
          93; 96; 99; 102; 105; 108; 111; 114; 117; 120;
          117; 114; 111; 108; 105; 102; 99; 96; 93; 90;
          91; 92; 93; 94; 95; 96; 97; 98; 99; 100;
          99; 98; 97; 96; 95; 94; 93; 92; 91; 90]%Z.

(** Two peaks, at indices 10 and 40, with prices [first] and [last]. *)
Definition fixture_two_peaks (first last : Z) : list float :=
  prices ([80; 80; 80; 80; 80; 80; 80; 80; 80; 80] ++ [first] ++
          [80; 80; 80; 80; 80; 80; 80; 80; 80; 80; 80; 80; 80; 80; 80;
           80; 80; 80; 80; 80; 80; 80; 80; 80; 80; 80; 80; 80; 80] ++ [last] ++
          [80; 80; 80; 80; 80; 80; 80; 80; 80; 80])%Z.

(** Bars whose five prices are the given closes. *)
Definition bars_of_close (close : list float) : list bar :=
  map (λ p, mkBar p p p p p) close.

(** A frame of [n] identical bars. *)
Definition flat_history (n : nat) (price : Z) : list bar :=
  let p := Fin (inject_Z price) in replicate n (mkBar p p p p p).

(** The bars of the head-and-shoulders fixture. *)
Definition fixture_history : list bar := bars_of_close fixture_head_and_shoulders.

(** A collaborator set whose provider returns [history], with the
    [pandas_ta] backend: [pta.macd] returns the frame of its three series. *)
Definition pandas_ta_lib (history : list bar) : collaborators :=
  let series (close : list float) := map (λ _, CFloat (Fin 0)) close in
  {| yf_history := λ _ _, Ok history;
     _ta_backend := Some pandas_ta;
     pta_sma := λ close _, Ok (Some (series close));
     pta_rsi := λ close _, Ok (Some (series close));
     pta_macd := λ close _ _ _,
       Ok (Some [("MACD_12_26_9", series close);
                 ("MACDh_12_26_9", series close);
                 ("MACDs_12_26_9", series close)]);
     pta_atr := λ _ _ close _, Ok (Some (series close));
     rolling_mean := λ close _, Ok (series close);
     ta_RSIIndicator_rsi := λ close _, Ok (series close);
     ta_MACD := λ close _ _ _, Ok (mkMACD (series close) (series close) (series close));
     ta_AverageTrueRange := λ _ _ close _, Ok (series close) |}.

(** ** More of [_run]: the latest value of a series, assigned columns *)

(** [series.iloc[-1] if not series.isnull().all() else None] for a series in
    hand: [None] when every cell is null (an empty series included),
    otherwise the last cell, null or not. *)
Definition latest (series : list cell) : cell :=
  if forallb isnull series then CNone else default CNone (last series).

(** The latest value of what a [pandas_ta] function returned: a series,
    or [None], which fills the column with [None]. *)
Definition latest_opt (value : option (list cell)) : cell :=
  match value with
  | Some series => latest series
  | None => CNone
  end.

(** Two peaks, at indices 10 and 40, with prices [first] and [last], over
    a floor at [base]. *)
Definition fixture_two_peaks_over (base first last : Z) : list float :=
  prices (replicate 10 base ++ [first] ++ replicate 29 base ++ [last] ++
          replicate 10 base).

(** A collaborator set whose provider returns [history], with the [ta]
    backend; every series holds a missing value followed by the closes. *)
Definition ta_lib (history : list bar) : collaborators :=
  let series (close : list float) := CFloat NaN :: map CFloat close in
  {| yf_history := λ _ _, Ok history;
     _ta_backend := Some ta;
     pta_sma := λ close _, Ok (Some (series close));
     pta_rsi := λ close _, Ok (Some (series close));
     pta_macd := λ close _ _ _, Ok None;
     pta_atr := λ _ _ close _, Ok (Some (series close));
     rolling_mean := λ close n, if 100 <? n then Ok [CFloat NaN] else Ok (series close);
     ta_RSIIndicator_rsi := λ close _, Ok (series close);
     ta_MACD := λ close _ _ _, Ok (mkMACD (series close) (series close) (series close));
     ta_AverageTrueRange := λ _ _ close _, Ok (series close) |}.

(** The collaborators [lib] with another [_ta_backend]. *)
Definition with_backend (backend : option backend) (lib : collaborators)
  : collaborators :=
  {| yf_history := yf_history lib;
     _ta_backend := backend;
     pta_sma := pta_sma lib;
     pta_rsi := pta_rsi lib;
     pta_macd := pta_macd lib;
     pta_atr := pta_atr lib;
     rolling_mean := rolling_mean lib;
     ta_RSIIndicator_rsi := ta_RSIIndicator_rsi lib;
     ta_MACD := ta_MACD lib;
     ta_AverageTrueRange := ta_AverageTrueRange lib |}.

(** [lib] with a [pta.sma] that returns [None] for a window over 100. *)
Definition with_short_sma (lib : collaborators) : collaborators :=
  {| yf_history := yf_history lib;
     _ta_backend := _ta_backend lib;
     pta_sma := λ close n, if 100 <? n then Ok None else pta_sma lib close n;
     pta_rsi := pta_rsi lib;
     pta_macd := pta_macd lib;
     pta_atr := pta_atr lib;
     rolling_mean := rolling_mean lib;
     ta_RSIIndicator_rsi := ta_RSIIndicator_rsi lib;
     ta_MACD := ta_MACD lib;
     ta_AverageTrueRange := ta_AverageTrueRange lib |}.

(** [lib] with a provider that raises [e]. *)
Definition with_failing_provider (e : exn) (lib : collaborators) : collaborators :=
  {| yf_history := λ _ _, Raise e;
     _ta_backend := _ta_backend lib;
     pta_sma := pta_sma lib;
     pta_rsi := pta_rsi lib;
     pta_macd := pta_macd lib;
     pta_atr := pta_atr lib;
     rolling_mean := rolling_mean lib;
     ta_RSIIndicator_rsi := ta_RSIIndicator_rsi lib;
     ta_MACD := ta_MACD lib;
     ta_AverageTrueRange := ta_AverageTrueRange lib |}.


(** The error dictionary the handlers of [_run] build for [e]. *)
Definition error_of (e : exn) : dict :=
  match e with
  | IndexError _ => error_dict index_error_msg
  | OtherException msg => error_dict (unexpected_msg msg)
  end.

(** ** The callers: [crew_simple.run_analysis], [main_v2.perform_crew_analysis] *)

(** What a caller shows: a line printed on the console, a Streamlit
    spinner, [st.write] and [st.error]. *)
Inductive event : Type :=
| Printed (text : string)
| Spinner (text : string)
| Written (value : pyval)
| Errored (text : string).

(** Code that raises and shows: the events are appended to a log, which an
    exception leaves as it is. *)
Definition IO (A : Type) : Type := list event → res A * list event.

#[export] Instance IO_ret : MRet IO := fun A a log => (Ok a, log).
#[export] Instance IO_bind : MBind IO := fun A B f m log =>
  match m log with
  | (Ok a, log') => f a log'
  | (Raise e, log') => (Raise e, log')
  end.

(** A call that shows [e] and then returns or raises as [r]. *)
Definition shown {A : Type} (e : event) (r : res A) : IO A :=
  fun log => (r, log ++ [e]).

(** [print(text)]. *)
Definition print (text : string) : IO unit := shown (Printed text) (Ok tt).

(** A call that shows nothing. *)
Definition call {A : Type} (r : res A) : IO A := fun log => (r, log).

(** [try: body except: handler], the handler receiving the exception. *)
Definition try_except {A : Type} (body : IO A) (handler : exn → IO A) : IO A :=
  fun log =>
    match body log with
    | (Ok a, log') => (Ok a, log')
    | (Raise e, log') => handler e log'
    end.

(** What the callers use outside the repository's sources: the language
    model, the other tools, [str] on the result of the technical analysis,
    and Streamlit.  A tool's result is given by its [str], the only use made
    of it. *)
Record agents : Type := mkAgents {
  new_llm : res unit;
  new_tools : res unit;
  llm_invoke : string → res string;
  fundamental_run : string → res string;
  reddit_run : string → res string;
  str_dict : dict → string;
  st_spinner : string → res unit;
  st_write : pyval → res unit;
  st_error : string → res unit
}.

(** The line feed. *)
Definition nl : string := String (Ascii.ascii_of_nat 10) "".

Definition research_prompt (stock_symbol : string) : string :=
  "Conduct research on " +:+ stock_symbol +:+
  ". Search for recent news, analyst ratings, and market sentiment." +:+ nl +:+
  "    Provide a comprehensive summary of your findings.".

Definition tech_prompt (stock_symbol tech_data : string) : string :=
  "Based on this technical data for " +:+ stock_symbol +:+ ":" +:+ nl +:+
  "    " +:+ tech_data +:+ nl +:+
  "    " +:+ nl +:+
  "    Provide a technical analysis summary with buy/sell/hold recommendation.".

Definition fundamental_prompt (stock_symbol fundamental_data : string) : string :=
  "Based on this fundamental data for " +:+ stock_symbol +:+ ":" +:+ nl +:+
  "    " +:+ fundamental_data +:+ nl +:+
  "    " +:+ nl +:+
  "    Provide a fundamental analysis summary with valuation assessment.".

Definition final_prompt (stock_symbol research tech fundamental sentiment_summary : string)
  : string :=
  "Create a comprehensive investment report for " +:+ stock_symbol +:+ "." +:+ nl +:+
  nl +:+
  "Research Findings:" +:+ nl +:+
  research +:+ nl +:+
  nl +:+
  "Technical Analysis:" +:+ nl +:+
  tech +:+ nl +:+
  nl +:+
  "Fundamental Analysis:" +:+ nl +:+
  fundamental +:+ nl +:+
  nl +:+
  "Sentiment Analysis:" +:+ nl +:+
  sentiment_summary +:+ nl +:+
  nl +:+
  "Provide a final investment recommendation with:" +:+ nl +:+
  "1. Executive Summary" +:+ nl +:+
  "2. Key Findings" +:+ nl +:+
  "3. Investment Recommendation (Buy/Hold/Sell)" +:+ nl +:+
  "4. Price Target (12-month)" +:+ nl +:+
  "5. Key Risks" +:+ nl.

(** The [try] around the sentiment tool: a bare [except] catches whatever
    is raised. *)
Definition sentiment (ag : agents) (stock_symbol : string) : IO string :=
  try_except
    (sentiment_data ← call (reddit_run ag stock_symbol);
     mret ("Reddit Sentiment: " +:+ sentiment_data))
    (λ _, mret "Reddit sentiment data unavailable").

(** The summary the sentiment step leaves, from what the Reddit tool did. *)
Definition summary_of (r : res string) : string :=
  match r with
  | Ok sentiment_data => "Reddit Sentiment: " +:+ sentiment_data
  | Raise _ => "Reddit sentiment data unavailable"
  end.

(** [run_analysis(stock_symbol)] of [crew_simple.py]. *)
Definition run_analysis (lib : collaborators) (ag : agents) (stock_symbol : string)
  : IO dict :=
  call (new_llm ag);;
  call (new_tools ag);;
  print ("Running analysis for stock: " +:+ stock_symbol);;
  print (nl +:+ "=== Research Phase ===");;
  research_result ← call (llm_invoke ag (research_prompt stock_symbol));
  print (nl +:+ "=== Technical Analysis Phase ===");;
  tech_data ← call (_run lib stock_symbol "1y");
  tech_result ← call (llm_invoke ag (tech_prompt stock_symbol (str_dict ag tech_data)));
  print (nl +:+ "=== Fundamental Analysis Phase ===");;
  fundamental_data ← call (fundamental_run ag stock_symbol);
  fundamental_result ←
    call (llm_invoke ag (fundamental_prompt stock_symbol fundamental_data));
  print (nl +:+ "=== Sentiment Analysis Phase ===");;
  sentiment_summary ← sentiment ag stock_symbol;
  print (nl +:+ "=== Generating Final Report ===");;
  final_report ←
    call (llm_invoke ag (final_prompt stock_symbol research_result tech_result
                           fundamental_result sentiment_summary));
  mret [("report", VCell (CStr final_report))].





(** Agents whose model always answers, whose Reddit tool is not configured
    and whose Streamlit calls succeed. *)
Definition quiet_agents : agents :=
  {| new_llm := Ok tt;
     new_tools := Ok tt;
     llm_invoke := λ _, Ok "Hold";
     fundamental_run := λ _, Ok "{}";
     reddit_run := λ _, Raise (OtherException "praw is not configured");
     str_dict := λ _, "{}";
     st_spinner := λ _, Ok tt;
     st_write := λ _, Ok tt;
     st_error := λ _, Ok tt |}.


(** ** The budgeting calculator of [main_v2.budgeting_section] *)

(** The card shown once "Calculate Savings" is pressed: the deficit, or the
    savings with their rate, an advice and its colour. *)
Inductive budget_card : Type :=
| BudgetDeficit (amount : Q)
| MonthlySavings (savings savings_rate : Q) (advice color : string).

(** The branch of [budgeting_section] under the button, on the two numbers
    entered; the markup around the values is left out. *)
Definition budgeting_section (income expenses : Q) : budget_card :=
  let savings := (income - expenses)%Q in
  let savings_rate := if Qlt_bool 0 income then (savings / income * 100)%Q else 0%Q in
  if Qlt_bool savings 0 then BudgetDeficit (- savings)
  else if Qlt_bool savings_rate 10 then
    MonthlySavings savings savings_rate
      "⚠️ Try to save at least 10-20% of your income for financial security."
      "#f45c43"
  else if Qlt_bool savings_rate 20 then
    MonthlySavings savings savings_rate
      "👍 Good start! Aim for 20% or more for optimal financial health."
      "#f39c12"
  else
    MonthlySavings savings savings_rate
      "🎉 Excellent! You're on track for strong financial health."
      "#11998e".

(** * Properties *)

(** ** Comparisons and indexing *)

Lemma Qlt_bool_iff (x y : Q) : Qlt_bool x y = true ↔ (x < y)%Q.
Proof. unfold Qlt_bool, Qlt. apply Z.ltb_lt. Qed.

Lemma fgt_exceeds (close : list float) (i j : nat) (x y : float) :
  close !! i = Some x → close !! j = Some y →
  fgt x y = true ↔ exceeds close i j.
Proof.
  intros Hi Hj. unfold exceeds, fgt, flt. split.
  - destruct y as [|b]; [done|]. destruct x as [|a]; [done|].
    intros H%Qlt_bool_iff. by exists a, b.
  - intros (a & b & Ha & Hb & Hlt).
    rewrite Hi in Ha. rewrite Hj in Hb. simplify_eq.
    by apply Qlt_bool_iff.
Qed.

Lemma getitem_nat {A : Type} (a : list A) (i : nat) (x : A) :
  a !! i = Some x → getitem a (Z.of_nat i) = Ok x.
Proof.
  intros H. pose proof (lookup_lt_Some _ _ _ H) as Hlt.
  unfold getitem.
  destruct (Z.ltb_spec (Z.of_nat i) 0) as [?|_]; [lia|].
  destruct (Z.leb_spec 0 (Z.of_nat i)) as [_|?]; [|lia].
  destruct (Z.ltb_spec (Z.of_nat i) (Z.of_nat (length a))) as [_|?]; [|lia].
  simpl. by rewrite Nat2Z.id, H.
Qed.

Lemma getitem_from_end {A : Type} (a : list A) (k : nat) (x : A) :
  0 < k ≤ length a → a !! (length a - k) = Some x →
  getitem a (- Z.of_nat k) = Ok x.
Proof.
  intros Hk H. pose proof (lookup_lt_Some _ _ _ H) as Hlt.
  unfold getitem.
  destruct (Z.ltb_spec (- Z.of_nat k) 0) as [_|?]; [|lia].
  destruct (Z.leb_spec 0 (Z.of_nat (length a) + - Z.of_nat k)) as [_|?]; [|lia].
  destruct (Z.ltb_spec (Z.of_nat (length a) + - Z.of_nat k) (Z.of_nat (length a)))
    as [_|?]; [|lia].
  simpl.
  replace (Z.to_nat (Z.of_nat (length a) + - Z.of_nat k)) with (length a - k) by lia.
  by rewrite H.
Qed.

Lemma take_indices_in_range {A : Type} (a : list A) (d : A) (idx : list nat) :
  Forall (λ i, i < length a) idx →
  take_indices a idx = Ok (map (λ i, default d (a !! i)) idx).
Proof.
  induction 1 as [|i idx Hi _ IH]; [done|].
  destruct (lookup_lt_is_Some_2 a i Hi) as [x Hx].
  simpl. rewrite (getitem_nat a i x Hx). simpl.
  rewrite IH. simpl. by rewrite Hx.
Qed.

Lemma lastn_length {A : Type} (k : nat) (a : list A) :
  length (lastn k a) = min k (length a).
Proof. unfold lastn. rewrite length_drop. lia. Qed.

Lemma lastn_all {A : Type} (k : nat) (a : list A) :
  length a ≤ k → lastn k a = a.
Proof. intros H. unfold lastn. by replace (length a - k) with 0 by lia. Qed.

Lemma lastn_map {A B : Type} (f : A → B) (k : nat) (a : list A) :
  lastn k (map f a) = map f (lastn k a).
Proof. unfold lastn. rewrite length_map. symmetry. apply (fmap_drop f). Qed.

(** ** The extrema detector *)

Lemma candidates_from_bounds (xs : list float) (i : nat) (prev : float) :
  Forall (λ c, i ≤ c < i + length xs) (candidates_from i prev xs).
Proof.
  revert i prev. induction xs as [|x rest IH]; intros i prev; simpl; [constructor|].
  assert (Forall (λ c, i ≤ c < i + S (length rest)) (candidates_from (S i) x rest)).
  { eapply Forall_impl; [apply IH|]. simpl. intros; lia. }
  destruct (flt prev x && falls_after x rest); [constructor; [lia|]|]; done.
Qed.

Lemma candidates_from_sorted (xs : list float) (i : nat) (prev : float) :
  StronglySorted lt (candidates_from i prev xs).
Proof.
  revert i prev. induction xs as [|x rest IH]; intros i prev; simpl; [constructor|].
  destruct (flt prev x && falls_after x rest); [|apply IH].
  constructor; [apply IH|].
  eapply Forall_impl; [apply candidates_from_bounds|]. simpl. intros; lia.
Qed.

Lemma local_maxima_bounds (x : list float) :
  Forall (λ c, c < length x) (local_maxima x).
Proof.
  destruct x as [|x0 rest]; simpl; [constructor|].
  eapply Forall_impl; [apply candidates_from_bounds|]. simpl. intros; lia.
Qed.

Lemma local_maxima_sorted (x : list float) : StronglySorted lt (local_maxima x).
Proof.
  destruct x as [|x0 rest]; simpl; [constructor|]. apply candidates_from_sorted.
Qed.

Lemma filter_distance_elem (x : list float) (d : nat) (cands kept : list nat) (c : nat) :
  c ∈ filter_distance x d kept cands → c ∈ kept ∨ c ∈ cands.
Proof.
  revert kept. induction cands as [|c0 cs IH]; intros kept; simpl.
  - intros H. left. apply list_elem_of_In, in_rev. by apply list_elem_of_In.
  - destruct kept as [|s ss].
    + intros H. apply IH in H as [H|H]; [right|right; right]; [|done].
      apply list_elem_of_singleton in H as ->. left.
    + destruct (c0 - s <? d); [destruct (flt (sample x s) (sample x c0))|];
        intros H; apply IH in H as [H|H];
        rewrite ?elem_of_cons in *; tauto.
Qed.

Lemma filter_distance_apart (x : list float) (d : nat) (cands kept : list nat) :
  StronglySorted (apart d) (rev kept) →
  StronglySorted lt cands →
  (∀ s c, s ∈ kept → c ∈ cands → s < c) →
  StronglySorted (apart d) (filter_distance x d kept cands).
Proof.
  revert kept. induction cands as [|c cs IH]; intros kept Hkept Hcands Hlt; simpl; [done|].
  apply StronglySorted_inv in Hcands as [Hcs Hc].
  rewrite Forall_forall in Hc.
  destruct kept as [|s ss].
  - apply IH; [repeat constructor|done|].
    intros s c' Hs Hc'. apply list_elem_of_singleton in Hs as ->. by apply Hc.
  - simpl in Hkept. apply StronglySorted_app in Hkept as (Hs & Hss & _).
    assert (s < c) as Hsc by (apply Hlt; [left|left]).
    assert (∀ t, t ∈ rev ss → t ∈ ss) as Hrev.
    { intros t Ht. apply list_elem_of_In, in_rev. by apply list_elem_of_In. }
    assert (∀ t, t ∈ ss → t + d ≤ s) as Hold.
    { intros t Ht. apply (Hs t s); [|left].
      apply list_elem_of_In. apply -> in_rev. by apply list_elem_of_In. }
    assert (∀ t c', t ∈ s :: ss → c' ∈ cs → t < c') as Hlt'.
    { intros t c' Ht Hc'. specialize (Hc c' Hc').
      specialize (Hlt t c Ht ltac:(left)). lia. }
    destruct (Nat.ltb_spec (c - s) d) as [Hnear|Hfar];
      [destruct (flt (sample x s) (sample x c))|].
    + apply IH; [|done|].
      * simpl. apply StronglySorted_app_2; [|done|repeat constructor].
        intros t c' Ht Hc'. apply list_elem_of_singleton in Hc' as ->.
        unfold apart. specialize (Hold t (Hrev t Ht)). lia.
      * intros t c' Ht Hc'. apply elem_of_cons in Ht as [->|Ht]; [by apply Hc|].
        apply Hlt'; [by right|done].
    + apply IH; [|done|done].
      simpl. apply StronglySorted_app_2; [done|done|repeat constructor].
    + apply IH; [|done|].
      * change (rev (c :: s :: ss)) with ((rev ss ++ [s]) ++ [c]).
        apply StronglySorted_app_2; [| |repeat constructor].
        -- intros t c' Ht Hc'. apply list_elem_of_singleton in Hc' as ->.
           unfold apart. apply elem_of_app in Ht as [Ht|Ht].
           ++ specialize (Hold t (Hrev t Ht)). lia.
           ++ apply list_elem_of_singleton in Ht as ->. lia.
        -- apply StronglySorted_app_2; [done|done|repeat constructor].
      * intros t c' Ht Hc'. apply elem_of_cons in Ht as [->|Ht]; [by apply Hc|].
        by apply Hlt'.
Qed.

Lemma find_peaks_apart (x : list float) (d : nat) :
  StronglySorted (apart d) (find_peaks x d).
Proof.
  unfold find_peaks. apply filter_distance_apart.
  - constructor.
  - apply local_maxima_sorted.
  - intros s c Hs. by apply elem_of_nil in Hs.
Qed.

Lemma find_peaks_bounds (x : list float) (d : nat) :
  Forall (λ c, c < length x) (find_peaks x d).
Proof.
  apply Forall_forall. intros c Hc.
  apply filter_distance_elem in Hc as [Hc|Hc]; [by apply elem_of_nil in Hc|].
  pose proof (local_maxima_bounds x) as H. rewrite Forall_forall in H. by apply H.
Qed.

Lemma find_troughs_bounds (x : list float) (d : nat) :
  Forall (λ c, c < length x) (find_peaks (negate x) d).
Proof.
  pose proof (find_peaks_bounds (negate x) d) as H.
  unfold negate in H at 1. by rewrite length_map in H.
Qed.

Lemma StronglySorted_lookup {A : Type} (R : relation A) (l : list A) (i j : nat) (a b : A) :
  StronglySorted R l → i < j → l !! i = Some a → l !! j = Some b → R a b.
Proof.
  intros Hl. revert i j. induction Hl as [|x l Hl IH Hx]; intros i j Hij Hi Hj; [done|].
  destruct j as [|j]; [lia|]. simpl in Hj.
  destruct i as [|i]; simpl in Hi.
  - simplify_eq. rewrite Forall_forall in Hx. apply Hx.
    by apply list_elem_of_lookup_2 in Hj.
  - apply (IH i j); [lia|done|done].
Qed.

Lemma apart_min_distance (d : nat) (points : list nat) :
  StronglySorted (apart d) points → min_distance d points.
Proof.
  intros Hs i j a b Hij Hi Hj.
  destruct (Nat.lt_total i j) as [Hlt|[->|Hlt]]; [|done|].
  - left. apply (StronglySorted_lookup _ _ _ _ _ _ Hs Hlt Hi Hj).
  - right. apply (StronglySorted_lookup _ _ _ _ _ _ Hs Hlt Hj Hi).
Qed.

Lemma find_peaks_increasing (x : list float) :
  StronglySorted lt (find_peaks x 20).
Proof.
  pose proof (find_peaks_apart x 20) as H.
  induction H as [|a l _ IH Ha]; constructor; [done|].
  eapply Forall_impl; [exact Ha|]. unfold apart. simpl. intros; lia.
Qed.

(** C6. For every close-price sequence and every minimum distance, in
    particular the configured 20 bars, any two distinct peaks of the
    detector's output are at least the minimum distance apart, and so are
    any two distinct troughs. *)
Theorem extrema_min_distance (close : list float) (minDistance : nat) :
  min_distance minDistance (find_peaks close minDistance) ∧
  min_distance minDistance (find_peaks (negate close) minDistance).
Proof. split; apply apart_min_distance, find_peaks_apart. Qed.

(** ** The pattern rules *)

Lemma split_last3 {A : Type} (l : list A) :
  3 ≤ length l → ∃ e a b c, l = e ++ [a; b; c].
Proof.
  intros H. exists (take (length l - 3) l).
  pose proof (take_drop (length l - 3) l) as Hl.
  assert (length (drop (length l - 3) l) = 3) as Hd by (rewrite length_drop; lia).
  destruct (drop (length l - 3) l) as [|a [|b [|c [|? ?]]]]; simplify_eq/=.
  by exists a, b, c.
Qed.

Lemma split_last2 {A : Type} (l : list A) :
  2 ≤ length l → ∃ e a b, l = e ++ [a; b].
Proof.
  intros H. exists (take (length l - 2) l).
  pose proof (take_drop (length l - 2) l) as Hl.
  assert (length (drop (length l - 2) l) = 2) as Hd by (rewrite length_drop; lia).
  destruct (drop (length l - 2) l) as [|a [|b [|? ?]]]; simplify_eq/=.
  by exists a, b.
Qed.

Lemma getitem_app_end {A : Type} (e tail : list A) (k : nat) (x : A) :
  0 < k ≤ length tail → tail !! (length tail - k) = Some x →
  getitem (e ++ tail) (- Z.of_nat k) = Ok x.
Proof.
  intros Hk H. apply getitem_from_end; rewrite length_app; [lia|].
  rewrite lookup_app_r by lia. rewrite <- H. f_equal. lia.
Qed.

Lemma is_head_and_shoulders_total (close : list float) :
  ∃ b, is_head_and_shoulders close = Ok b ∧ (b = true ↔ HeadAndShoulders_rule close).
Proof.
  unfold is_head_and_shoulders, HeadAndShoulders_rule.
  pose proof (find_peaks_bounds close 20) as Hb.
  destruct (Nat.leb_spec 3 (length (find_peaks close 20))) as [Hlen|Hlen]; cycle 1.
  { exists false. split; [done|]. split; [done|].
    intros (e & l & h & r & Heq & _). rewrite Heq, length_app in Hlen. simpl in Hlen. lia. }
  destruct (split_last3 _ Hlen) as (e & l & h & r & Heq).
  rewrite Heq in Hb |- *.
  apply Forall_app in Hb as [_ Hb].
  apply Forall_cons in Hb as [Hl Hb]. apply Forall_cons in Hb as [Hh Hb].
  apply Forall_cons in Hb as [Hr _].
  destruct (lookup_lt_is_Some_2 close l Hl) as [cl Hcl].
  destruct (lookup_lt_is_Some_2 close h Hh) as [ch Hch].
  destruct (lookup_lt_is_Some_2 close r Hr) as [cr Hcr].
  assert (getitem (e ++ [l; h; r]) (-3)%Z = Ok l) as ->
    by (apply (getitem_app_end e [l; h; r] 3 l); simpl; [lia|done]).
  assert (getitem (e ++ [l; h; r]) (-2)%Z = Ok h) as ->
    by (apply (getitem_app_end e [l; h; r] 2 h); simpl; [lia|done]).
  assert (getitem (e ++ [l; h; r]) (-1)%Z = Ok r) as ->
    by (apply (getitem_app_end e [l; h; r] 1 r); simpl; [lia|done]).
  simpl.
  rewrite (getitem_nat close h ch Hch). simpl.
  rewrite (getitem_nat close l cl Hcl). simpl.
  pose proof (fgt_exceeds close h l ch cl Hch Hcl) as Hhl.
  pose proof (fgt_exceeds close h r ch cr Hch Hcr) as Hhr.
  assert (∀ P : nat → nat → nat → Prop, (∃ e' l' h' r', e ++ [l; h; r] = e' ++ [l'; h'; r'] ∧ P l' h' r') ↔ P l h r)
    as Hex.
  { intros P. split.
    - intros (e' & l' & h' & r' & Heq' & HP).
      change [l; h; r] with ([l; h] ++ [r]) in Heq'.
      change [l'; h'; r'] with ([l'; h'] ++ [r']) in Heq'.
      rewrite !app_assoc in Heq'. apply app_inj_tail in Heq' as [Heq' ->].
      change [l; h] with ([l] ++ [h]) in Heq'. change [l'; h'] with ([l'] ++ [h']) in Heq'.
      rewrite !app_assoc in Heq'. apply app_inj_tail in Heq' as [Heq' ->].
      apply app_inj_tail in Heq' as [_ ->]. done.
    - intros HP. by exists e, l, h, r. }
  destruct (fgt ch cl) eqn:E1; simpl.
  - rewrite (getitem_nat close r cr Hcr). simpl.
    destruct (fgt ch cr) eqn:E2; simpl; eexists; (split; [reflexivity|]);
      rewrite (Hex (λ l' h' r', exceeds close h' l' ∧ exceeds close h' r')).
    + split; [|done]. intros _. split; [by apply Hhl|by apply Hhr].
    + split; [done|]. intros [_ H]. apply Hhr in H. congruence.
  - eexists; (split; [reflexivity|]).
    rewrite (Hex (λ l' h' r', exceeds close h' l' ∧ exceeds close h' r')).
    split; [done|]. intros [H _]. apply Hhl in H. congruence.
Qed.

Lemma below_threshold_iff (a b : Q) :
  flt (fdiv (fabs (fsub (Fin b) (Fin a))) (Fin a)) threshold = true ↔
  ¬ (a == 0)%Q ∧ (Qabs (b - a) / a < 3 # 100)%Q.
Proof.
  unfold threshold. simpl. destruct (Qeq_bool a 0) eqn:E; simpl.
  - apply Qeq_bool_iff in E. split; [done|]. by intros [H _].
  - apply Qeq_bool_neq in E. rewrite Qlt_bool_iff. tauto.
Qed.

Lemma within_threshold_total (close : list float) (ext : list nat) :
  2 ≤ length ext → Forall (λ c, c < length close) ext →
  ∃ b, within_threshold close ext = Ok b ∧ (b = true ↔ within_3_percent close ext).
Proof.
  intros Hlen Hb. unfold within_threshold.
  destruct (split_last2 _ Hlen) as (e & f & l & ->).
  apply Forall_app in Hb as [_ Hb].
  apply Forall_cons in Hb as [Hf Hb]. apply Forall_cons in Hb as [Hl _].
  destruct (lookup_lt_is_Some_2 close f Hf) as [cf Hcf].
  destruct (lookup_lt_is_Some_2 close l Hl) as [cl Hcl].
  assert (getitem (e ++ [f; l]) (-1)%Z = Ok l) as ->
    by (apply (getitem_app_end e [f; l] 1 l); simpl; [lia|done]).
  assert (getitem (e ++ [f; l]) (-2)%Z = Ok f) as ->
    by (apply (getitem_app_end e [f; l] 2 f); simpl; [lia|done]).
  simpl. rewrite (getitem_nat close l cl Hcl), (getitem_nat close f cf Hcf). simpl.
  eexists; split; [reflexivity|]. unfold within_3_percent. split.
  - intros H. exists e, f, l.
    destruct cl as [|b]; [by destruct cf|]. destruct cf as [|a]; [done|].
    exists a, b. apply below_threshold_iff in H as [Hne Hlt]. by repeat split.
  - intros (e' & f' & l' & a & b & Heq & Ha & Hb & Hne & Hlt).
    change [f; l] with ([f] ++ [l]) in Heq. change [f'; l'] with ([f'] ++ [l']) in Heq.
    rewrite !app_assoc in Heq. apply app_inj_tail in Heq as [Heq <-].
    apply app_inj_tail in Heq as [_ <-].
    rewrite Hcf in Ha. rewrite Hcl in Hb. simplify_eq.
    by apply below_threshold_iff.
Qed.

Lemma within_3_percent_length (close : list float) (ext : list nat) :
  within_3_percent close ext → 2 ≤ length ext.
Proof.
  intros (e & f & l & a & b & -> & _). rewrite length_app. simpl. lia.
Qed.

Lemma is_double_top_total (close : list float) :
  ∃ b, is_double_top close = Ok b ∧ (b = true ↔ DoubleTop_rule close).
Proof.
  unfold is_double_top, DoubleTop_rule.
  destruct (Nat.leb_spec 2 (length (find_peaks close 20))) as [Hlen|Hlen].
  - destruct (within_threshold_total close _ Hlen (find_peaks_bounds close 20))
      as (b & -> & Hb).
    simpl. exists b. by destruct b.
  - exists false. split; [done|]. split; [done|].
    intros H%within_3_percent_length. lia.
Qed.

Lemma is_double_bottom_total (close : list float) :
  ∃ b, is_double_bottom close = Ok b ∧ (b = true ↔ DoubleBottom_rule close).
Proof.
  unfold is_double_bottom, DoubleBottom_rule.
  destruct (Nat.leb_spec 2 (length (find_peaks (negate close) 20))) as [Hlen|Hlen].
  - destruct (within_threshold_total close _ Hlen (find_troughs_bounds close 20))
      as (b & -> & Hb).
    simpl. exists b. by destruct b.
  - exists false. split; [done|]. split; [done|].
    intros H%within_3_percent_length. lia.
Qed.

(** What [identify_chart_patterns] returns, from the three tests. *)
Lemma identify_chart_patterns_eq (history : frame) (hs dt db : bool) :
  is_head_and_shoulders (column Close history) = Ok hs →
  is_double_top (column Close history) = Ok dt →
  is_double_bottom (column Close history) = Ok db →
  identify_chart_patterns history =
    Ok ((if hs then ["Head and Shoulders"] else []) ++
        (if dt then ["Double Top"] else []) ++
        (if db then ["Double Bottom"] else [])).
Proof.
  intros Hhs Hdt Hdb. unfold identify_chart_patterns.
  rewrite Hhs, Hdt, Hdb. by destruct hs, dt, db.
Qed.

Lemma labels_from_tests (hs dt db : bool) :
  let patterns := (if hs then ["Head and Shoulders"] else []) ++
                  (if dt then ["Double Top"] else []) ++
                  (if db then ["Double Bottom"] else []) in
  patterns `sublist_of` pattern_labels ∧ NoDup patterns ∧
  ("Head and Shoulders" ∈ patterns ↔ hs = true) ∧
  ("Double Top" ∈ patterns ↔ dt = true) ∧
  ("Double Bottom" ∈ patterns ↔ db = true).
Proof.
  unfold pattern_labels.
  destruct hs, dt, db; simpl; split_and!;
    first [ solve [repeat first [apply sublist_nil | apply sublist_skip | apply sublist_cons]]
          | solve [repeat (apply NoDup_cons; split;
                     [rewrite ?elem_of_cons, ?elem_of_nil; intuition congruence|]);
                   apply NoDup_nil; exact I]
          | solve [rewrite ?elem_of_cons, ?elem_of_nil; intuition congruence] ].
Qed.

Lemma identify_chart_patterns_total (history : frame) :
  ∃ patterns,
    identify_chart_patterns history = Ok patterns ∧
    patterns `sublist_of` pattern_labels ∧ NoDup patterns ∧
    ("Head and Shoulders" ∈ patterns ↔ HeadAndShoulders_rule (column Close history)) ∧
    ("Double Top" ∈ patterns ↔ DoubleTop_rule (column Close history)) ∧
    ("Double Bottom" ∈ patterns ↔ DoubleBottom_rule (column Close history)).
Proof.
  destruct (is_head_and_shoulders_total (column Close history)) as (hs & Hhs & Rhs).
  destruct (is_double_top_total (column Close history)) as (dt & Hdt & Rdt).
  destruct (is_double_bottom_total (column Close history)) as (db & Hdb & Rdb).
  eexists. split; [by apply identify_chart_patterns_eq|].
  destruct (labels_from_tests hs dt db) as (Hsub & Hnd & H1 & H2 & H3).
  split_and!; [done|done|by rewrite H1|by rewrite H2|by rewrite H3].
Qed.

(** C3. For every close-price sequence, [is_head_and_shoulders] returns
    (it never raises) and answers true, and "Head and Shoulders" is among the
    patterns reported for a frame, exactly when the detector with minimum
    distance 20 yields at least three peaks of which, taking the last three in
    index order as left shoulder, head and right shoulder, the head's price
    strictly exceeds both shoulders' prices.  The series with peaks at indices
    10, 30, 50 of prices 100, 120, 100 is classified as HeadAndShoulders. *)
Theorem head_and_shoulders_rule :
  (∀ close : list float,
     ∃ b, is_head_and_shoulders close = Ok b ∧
          (b = true ↔ HeadAndShoulders_rule close)) ∧
  (∀ history : frame,
     ∃ patterns, identify_chart_patterns history = Ok patterns ∧
       ("Head and Shoulders" ∈ patterns ↔
        HeadAndShoulders_rule (column Close history))) ∧
  (find_peaks fixture_head_and_shoulders 20 = [10; 30; 50] ∧
   map (sample fixture_head_and_shoulders) [10; 30; 50] = prices [100; 120; 100]%Z ∧
   is_head_and_shoulders fixture_head_and_shoulders = Ok true).
Proof.
  split_and!.
  - apply is_head_and_shoulders_total.
  - intros history.
    destruct (identify_chart_patterns_total history) as (ps & Hps & _ & _ & H & _).
    by exists ps.
  - by vm_compute.
  - by vm_compute.
  - by vm_compute.
Qed.

(** C4. For every close-price sequence, "Double Top" is reported exactly
    when the detector yields at least two peaks and the absolute difference
    of the last two peaks' prices, divided by the earlier peak's price (a
    zero price gives no quotient below the threshold), is strictly below
    0.03; "Double Bottom" is the same rule on the last two troughs.  Two last
    peaks of prices 100 and 102 match DoubleTop; prices 100 and 110 do not. *)
Theorem double_top_bottom_rule :
  (∀ close : list float,
     (∃ b, is_double_top close = Ok b ∧ (b = true ↔ DoubleTop_rule close)) ∧
     (∃ b, is_double_bottom close = Ok b ∧ (b = true ↔ DoubleBottom_rule close))) ∧
  (∀ history : frame,
     ∃ patterns, identify_chart_patterns history = Ok patterns ∧
       ("Double Top" ∈ patterns ↔ DoubleTop_rule (column Close history)) ∧
       ("Double Bottom" ∈ patterns ↔ DoubleBottom_rule (column Close history))) ∧
  (find_peaks (fixture_two_peaks 100 102) 20 = [10; 40] ∧
   map (sample (fixture_two_peaks 100 102)) [10; 40] = prices [100; 102]%Z ∧
   is_double_top (fixture_two_peaks 100 102) = Ok true) ∧
  (find_peaks (fixture_two_peaks 100 110) 20 = [10; 40] ∧
   map (sample (fixture_two_peaks 100 110)) [10; 40] = prices [100; 110]%Z ∧
   is_double_top (fixture_two_peaks 100 110) = Ok false).
Proof.
  split_and!; try by vm_compute.
  - intros close. split; [apply is_double_top_total|apply is_double_bottom_total].
  - intros history.
    destruct (identify_chart_patterns_total history) as (ps & Hps & _ & _ & _ & H2 & H3).
    by exists ps.
Qed.

(** C10. For every frame, [identify_chart_patterns] returns a list without
    duplicate labels whose elements appear in the fixed order "Head and
    Shoulders", "Double Top", "Double Bottom": it is a subsequence of that
    three-element sequence, and each label is present exactly when its rule
    matched. *)
Theorem identified_patterns_ordered (history : frame) :
  ∃ patterns,
    identify_chart_patterns history = Ok patterns ∧
    patterns `sublist_of` pattern_labels ∧ NoDup patterns ∧
    ("Head and Shoulders" ∈ patterns ↔
       is_head_and_shoulders (column Close history) = Ok true) ∧
    ("Double Top" ∈ patterns ↔ is_double_top (column Close history) = Ok true) ∧
    ("Double Bottom" ∈ patterns ↔ is_double_bottom (column Close history) = Ok true).
Proof.
  destruct (is_head_and_shoulders_total (column Close history)) as (hs & Hhs & _).
  destruct (is_double_top_total (column Close history)) as (dt & Hdt & _).
  destruct (is_double_bottom_total (column Close history)) as (db & Hdb & _).
  eexists. split; [by apply identify_chart_patterns_eq|].
  destruct (labels_from_tests hs dt db) as (Hsub & Hnd & H1 & H2 & H3).
  rewrite Hhs, Hdt, Hdb.
  split_and!; [done|done|rewrite H1|rewrite H2|rewrite H3];
    (split; [by intros ->|by intros [= ->]]).
Qed.

(** ** The body of [_run] *)

Lemma current_eq (name : string) (h : frame) :
  current name h = (current_value name (derived h !! name), h).
Proof.
  unfold current, current_value, getcol, mbind, M_bind, lift, mret, M_ret.
  destruct (derived h !! name) as [c|] eqn:E; simpl; [|done].
  destruct (negb (forallb isnull c)); simpl; [by rewrite E|done].
Qed.

Lemma M_bind_eq {A B : Type} (m : M A) (f : A → M B) (h : frame) :
  (m ≫= f) h = match m h with
               | (Ok a, h') => f a h'
               | (Raise e, h') => (Raise e, h')
               end.
Proof. done. Qed.

Lemma bind_read {B : Type} (field : bar → float) (k : list float → M B) (h : frame) :
  (read field ≫= k) h = k (column field h) h.
Proof. done. Qed.

Lemma bind_lift {A B : Type} (r : res A) (k : A → M B) (h : frame) :
  (lift r ≫= k) h = match r with Ok a => k a h | Raise e => (Raise e, h) end.
Proof. by destruct r. Qed.

Lemma bind_current {B : Type} (name : string) (k : cell → M B) (h : frame) :
  (current name ≫= k) h =
  match current_value name (derived h !! name) with
  | Ok a => k a h
  | Raise e => (Raise e, h)
  end.
Proof. rewrite M_bind_eq, current_eq. by destruct (current_value _ _). Qed.

Lemma bind_get_history {B : Type} (k : frame → M B) (h : frame) :
  (get_history ≫= k) h = k h h.
Proof. done. Qed.

Ltac step_M :=
  first [ rewrite bind_read | rewrite bind_get_history
        | rewrite bind_current | rewrite bind_lift ];
  cbv beta zeta.

Lemma report_eq (ticker : string) (h : frame) :
  report ticker h = (report_value ticker h, h).
Proof.
  unfold report, report_value.
  repeat (step_M;
          try match goal with
              | |- match ?r with _ => _ end = _ =>
                  destruct r; [|reflexivity]; cbn [mbind res_bind]
              end).
  reflexivity.
Qed.

(** ** Indicator columns: what a run writes *)

Lemma write_only_bind {A B : Type} (m : M A) (k : A → M B) :
  write_only m → (∀ a, write_only (k a)) → write_only (m ≫= k).
Proof.
  intros Hm Hk b d. rewrite !M_bind_eq.
  rewrite (Hm b d). destruct (m (mkFrame b ∅)) as [[a|e] [b' W]] eqn:E; simpl.
  - pose proof (Hm b ∅) as H0. rewrite E in H0. simpl in H0.
    injection H0 as Hb _. subst b'.
    rewrite (Hk a b (W ∪ d)), (Hk a b W).
    destruct (k a (mkFrame b ∅)) as [r2 [b2 W2]]; simpl.
    by rewrite (assoc_L (∪)).
  - pose proof (Hm b ∅) as H0. rewrite E in H0. simpl in H0.
    by injection H0 as -> _.
Qed.

Lemma write_only_read (field : bar → float) : write_only (read field).
Proof. intros b d. unfold read. simpl. by rewrite (left_id_L ∅ (∪)). Qed.

Lemma write_only_lift {A : Type} (r : res A) : write_only (lift r).
Proof. intros b d. unfold lift. simpl. by rewrite (left_id_L ∅ (∪)). Qed.

Lemma write_only_setitem (name : string) (series : list cell) :
  write_only (setitem name series).
Proof.
  intros b d. unfold setitem. simpl.
  by rewrite (insert_union_singleton_l d), insert_empty.
Qed.

Lemma write_only_setitem_scalar (name : string) (scalar : cell) :
  write_only (setitem_scalar name scalar).
Proof.
  intros b d. unfold setitem_scalar. simpl.
  by rewrite (insert_union_singleton_l d), insert_empty.
Qed.

Lemma write_only_setitem_opt (name : string) (value : option (list cell)) :
  write_only (setitem_opt name value).
Proof.
  destruct value; [apply write_only_setitem|apply write_only_setitem_scalar].
Qed.

Ltac write_only_steps :=
  repeat first
    [ apply write_only_read | apply write_only_lift
    | apply write_only_setitem | apply write_only_setitem_scalar
    | apply write_only_setitem_opt
    | apply write_only_bind; [|intros] ];
  repeat match goal with
         | |- write_only (let '(_, _) := ?p in _) => destruct p
         end.

Lemma write_only_indicators_pandas_ta (lib : collaborators) :
  write_only (indicators_pandas_ta lib).
Proof. unfold indicators_pandas_ta. repeat write_only_steps. Qed.

Lemma write_only_indicators_ta (lib : collaborators) :
  write_only (indicators_ta lib).
Proof. unfold indicators_ta. repeat write_only_steps. Qed.

Lemma bind_setitem {B : Type} (name : string) (series : list cell) (k : unit → M B) (h : frame) :
  (setitem name series ≫= k) h = k () (mkFrame (bars h) (<[name := series]> (derived h))).
Proof. done. Qed.

Lemma bind_setitem_scalar {B : Type} (name : string) (scalar : cell) (k : unit → M B) (h : frame) :
  (setitem_scalar name scalar ≫= k) h =
  k () (mkFrame (bars h) (<[name := replicate (length (bars h)) scalar]> (derived h))).
Proof. done. Qed.

Lemma setitem_opt_eq (name : string) (value : option (list cell)) (h : frame) :
  setitem_opt name value h =
  (Ok (), mkFrame (bars h) (<[name := stored (length (bars h)) value]> (derived h))).
Proof. by destruct value. Qed.

Lemma bind_setitem_opt {B : Type} (name : string) (value : option (list cell))
    (k : unit → M B) (h : frame) :
  (setitem_opt name value ≫= k) h =
  k () (mkFrame (bars h) (<[name := stored (length (bars h)) value]> (derived h))).
Proof. by destruct value. Qed.

Ltac step_in H :=
  first [ rewrite bind_read in H | rewrite bind_get_history in H
        | rewrite bind_current in H | rewrite bind_lift in H
        | rewrite bind_setitem in H | rewrite bind_setitem_scalar in H
        | rewrite bind_setitem_opt in H ];
  cbv beta zeta in H; unfold column in H; simpl bars in H; simpl derived in H.

Ltac steps_in H :=
  repeat (step_in H;
          try match type of H with
              | match ?r with _ => _ end = _ =>
                  destruct r as [?|?] eqn:?; [|discriminate]
              end;
          try match type of H with
              | (let '(_, _) := ?p in _) _ = _ => destruct p as [[? ?] ?]
              end).

Lemma indicators_pandas_ta_Ok (lib : collaborators) (h h' : frame) :
  indicators_pandas_ta lib h = (Ok (), h') →
  ∃ sma_50 sma_200 rsi_ cols a b c atr,
    pta_macd lib (map Close (bars h)) 12 26 9 = Ok cols ∧
    unpack3 cols = Ok (a, b, c) ∧
    h' = mkFrame (bars h)
           (<["ATR" := atr]>
              (<["MACD_HIST" := replicate (length (bars h)) (CStr c)]>
                 (<["MACD_SIGNAL" := replicate (length (bars h)) (CStr b)]>
                    (<["MACD" := replicate (length (bars h)) (CStr a)]>
                       (<["RSI" := rsi_]>
                          (<["SMA_200" := sma_200]>
                             (<["SMA_50" := sma_50]> (derived h)))))))).
Proof.
  unfold indicators_pandas_ta. intros H. steps_in H.
  rewrite setitem_opt_eq in H. simpl in H. injection H as <-.
  by repeat eexists.
Qed.

Lemma indicators_ta_Ok (lib : collaborators) (h h' : frame) :
  indicators_ta lib h = (Ok (), h') →
  ∃ sma_50 sma_200 rsi_ m atr,
    ta_MACD lib (map Close (bars h)) 26 12 9 = Ok m ∧
    h' = mkFrame (bars h)
           (<["ATR" := atr]>
              (<["MACD_HIST" := macd_diff m]>
                 (<["MACD_SIGNAL" := macd_signal m]>
                    (<["MACD" := macd m]>
                       (<["RSI" := rsi_]>
                          (<["SMA_200" := sma_200]>
                             (<["SMA_50" := sma_50]> (derived h)))))))).
Proof.
  unfold indicators_ta. intros H. steps_in H.
  unfold setitem in H. simpl in H. injection H as <-.
  by repeat eexists.
Qed.

(** ** The result depends on the bars only *)

Lemma report_value_same (ticker : string) (h1 h2 : frame) :
  same_indicators h1 h2 → report_value ticker h1 = report_value ticker h2.
Proof.
  intros [Hb Hd]. unfold report_value, identify_chart_patterns, column.
  rewrite Hb.
  apply Forall_cons in Hd as [-> Hd]. apply Forall_cons in Hd as [-> Hd].
  apply Forall_cons in Hd as [-> Hd]. apply Forall_cons in Hd as [-> Hd].
  by apply Forall_cons in Hd as [-> _].
Qed.

Lemma assigns_indicators_pandas_ta (lib : collaborators) :
  assigns_indicators (indicators_pandas_ta lib).
Proof.
  split; [apply write_only_indicators_pandas_ta|].
  intros h h' (? & ? & ? & ? & ? & ? & ? & ? & _ & _ & ->)%indicators_pandas_ta_Ok.
  simpl. repeat constructor; by simplify_map_eq.
Qed.

Lemma assigns_indicators_ta (lib : collaborators) :
  assigns_indicators (indicators_ta lib).
Proof.
  split; [apply write_only_indicators_ta|].
  intros h h' (? & ? & ? & ? & ? & _ & ->)%indicators_ta_Ok.
  simpl. repeat constructor; by simplify_map_eq.
Qed.

Lemma indicators_then_report (ind : M unit) (ticker : string)
    (b : list bar) (d1 d2 : gmap string (list cell)) :
  assigns_indicators ind →
  fst ((ind ;; report ticker) (mkFrame b d1)) = fst ((ind ;; report ticker) (mkFrame b d2)) ∧
  bars (snd ((ind ;; report ticker) (mkFrame b d1))) = b.
Proof.
  intros [Hw Hk]. rewrite !M_bind_eq, (Hw b d1), (Hw b d2).
  destruct (ind (mkFrame b ∅)) as [[[]|e] [b' W]] eqn:E; simpl; [|done].
  rewrite !report_eq. simpl. split; [|done].
  apply report_value_same. split; [done|]. simpl.
  specialize (Hk _ _ E). simpl in Hk.
  eapply Forall_impl; [exact Hk|]. simpl.
  intros name Hname. by rewrite !lookup_union_l'.
Qed.

Lemma analysis_inputs (lib : collaborators) (ticker : string)
    (b : list bar) (d1 d2 : gmap string (list cell)) :
  fst (analysis lib ticker (mkFrame b d1)) = fst (analysis lib ticker (mkFrame b d2)) ∧
  bars (snd (analysis lib ticker (mkFrame b d1))) = b.
Proof.
  unfold analysis. rewrite !bind_get_history. unfold empty. cbn [bars].
  destruct (match b with [] => true | _ :: _ => false end || (length b <? 50));
    [by cbn|].
  destruct (_ta_backend lib) as [[]|]; [| |by cbn].
  - apply indicators_then_report, assigns_indicators_pandas_ta.
  - apply indicators_then_report, assigns_indicators_ta.
Qed.

(** C9. The engine is a function of the price series alone: for every
    series, whatever derived columns the frame already carries, the engine
    returns the same result (indicator values, levels and patterns, or the
    same error); an invocation leaves the series itself untouched, so a
    second invocation over the frame left by the first returns the result of
    the first.  The collaborators are functions of their arguments. *)
Theorem engine_deterministic (lib : collaborators) (ticker : string)
    (series : list bar) (d d' : gmap string (list cell)) :
  fst (engine lib ticker (mkFrame series d)) = fst (engine lib ticker (mkFrame series d')) ∧
  bars (snd (engine lib ticker (mkFrame series d))) = series ∧
  fst (engine lib ticker (snd (engine lib ticker (mkFrame series d)))) =
  fst (engine lib ticker (mkFrame series d)).
Proof.
  assert (∀ h, engine lib ticker h =
               (handlers (fst (analysis lib ticker h)), snd (analysis lib ticker h))) as He.
  { intros h. unfold engine. by destruct (analysis lib ticker h). }
  rewrite !He. simpl.
  destruct (analysis_inputs lib ticker series d d') as [H1 H2].
  split_and!; [by rewrite H1|done|].
  destruct (snd (analysis lib ticker (mkFrame series d))) as [b1 d1] eqn:E.
  simpl in H2. subst b1.
  by destruct (analysis_inputs lib ticker series d1 d) as [-> _].
Qed.

(** ** Levels *)

Lemma tolist_id (lv : list float) : tolist lv = lv.
Proof. by destruct lv. Qed.

Lemma levels_in_range (close_prices : list float) (extrema : list nat) :
  Forall (λ i, i < length close_prices) extrema →
  levels close_prices extrema = Ok (map (sample close_prices) (lastn 3 extrema)).
Proof.
  intros H. unfold levels. rewrite (take_indices_in_range _ NaN _ H).
  fold (sample close_prices).
  destruct (Nat.leb_spec 3 (length extrema)) as [Hlen|Hlen]; simpl.
  - by rewrite lastn_map.
  - rewrite lastn_all by lia. done.
Qed.

(** ** The report *)

Lemma report_value_Ok (ticker : string) (h : frame) (d : dict) :
  report_value ticker h = Ok d →
  ∃ current_price sma_50 sma_200 rsi_ macd_ atr patterns,
    identify_chart_patterns h = Ok patterns ∧
    let close_prices := dropna (column Close h) in
    d = [("ticker", VCell (CStr ticker));
         ("current_price", VCell (CFloat current_price));
         ("sma_50", VCell sma_50);
         ("sma_200", VCell sma_200);
         ("rsi", VCell rsi_);
         ("macd", VCell macd_);
         ("atr", VCell atr);
         ("support_levels",
          VFloats (map (sample close_prices)
                       (lastn 3 (find_peaks (negate close_prices) 20))));
         ("resistance_levels",
          VFloats (map (sample close_prices) (lastn 3 (find_peaks close_prices 20))));
         ("identified_patterns", VStrs patterns)].
Proof.
  unfold report_value.
  rewrite (levels_in_range _ _ (find_troughs_bounds _ 20)).
  rewrite (levels_in_range _ _ (find_peaks_bounds _ 20)).
  intros H.
  repeat match type of H with
         | (?r ≫= _) = Ok _ =>
             destruct r eqn:?; cbn [mbind res_bind] in H; [|discriminate]
         end.
  injection H as <-. rewrite !tolist_id. by repeat eexists.
Qed.

Lemma report_value_keys (ticker : string) (h : frame) (d : dict) :
  report_value ticker h = Ok d → keys d = report_keys ∧ dict_get "error" d = None.
Proof.
  intros (? & ? & ? & ? & ? & ? & ? & _ & ->)%report_value_Ok. done.
Qed.

Lemma insufficient_iff (h : frame) :
  empty h || (length (bars h) <? 50) = true ↔ length (bars h) < 50.
Proof.
  unfold empty. destruct (bars h) as [|x l]; simpl; [split; [lia|done]|].
  apply Nat.ltb_lt.
Qed.

(** What the [try] block returns when it does not raise. *)
Lemma analysis_Ok (lib : collaborators) (ticker : string) (h h' : frame) (d : dict) :
  analysis lib ticker h = (Ok d, h') →
  (length (bars h) < 50 ∧ d = error_dict insufficient_data_msg) ∨
  (50 ≤ length (bars h) ∧ _ta_backend lib = None ∧ d = error_dict no_backend_msg) ∨
  (50 ≤ length (bars h) ∧ bars h' = bars h ∧ report_value ticker h' = Ok d ∧
   ∃ b, _ta_backend lib = Some b ∧
        match b with
        | pandas_ta => indicators_pandas_ta lib h = (Ok (), h')
        | ta => indicators_ta lib h = (Ok (), h')
        end).
Proof.
  unfold analysis. rewrite bind_get_history.
  pose proof (insufficient_iff h) as Hlen.
  destruct (empty h || (length (bars h) <? 50)).
  { intros [= <- _]. left. split; [by apply Hlen|done]. }
  assert (50 ≤ length (bars h)) as Hge.
  { destruct (Nat.le_gt_cases 50 (length (bars h))) as [?|Hlt]; [done|].
    by apply Hlen in Hlt. }
  assert (∀ ind : M unit, write_only ind →
            (ind ;; report ticker) h = (Ok d, h') →
            bars h' = bars h ∧ report_value ticker h' = Ok d ∧ ind h = (Ok (), h')) as Hstep.
  { intros ind Hw. rewrite M_bind_eq. destruct h as [b d0].
    rewrite (Hw b d0). destruct (ind (mkFrame b ∅)) as [[[]|e] [b' W]]; simpl; [|done].
    rewrite report_eq. intros [= Hr <-]. by rewrite Hr. }
  destruct (_ta_backend lib) as [[]|].
  - intros (? & ? & ?)%Hstep; [|apply write_only_indicators_pandas_ta].
    right. right. split_and!; [done..|]. by exists pandas_ta.
  - intros (? & ? & ?)%Hstep; [|apply write_only_indicators_ta].
    right. right. split_and!; [done..|]. by exists ta.
  - intros [= <- _]. right. left. done.
Qed.

Lemma _run_eq (lib : collaborators) (ticker period : string) :
  _run lib ticker period =
  match yf_history lib ticker period with
  | Ok history => handlers (fst (analysis lib ticker (mkFrame history ∅)))
  | Raise e => handlers (Raise e)
  end.
Proof. unfold _run. by destruct (yf_history lib ticker period). Qed.

(** C1. For every ticker and period, whatever the collaborators return or
    raise (any exception deriving from [Exception]), [_run] returns a
    dictionary and raises nothing: either an error dictionary, whose only
    key is "error" and whose value is a message, or a full report, whose
    keys are exactly the ten report keys and which has no "error" key.  Every
    exception raised in the [try] block becomes an error dictionary. *)
Theorem run_returns_structured (lib : collaborators) (ticker period : string) :
  (∃ d, _run lib ticker period = Ok d ∧
        ((∃ msg, d = error_dict msg ∧ keys d = ["error"]) ∨
         (keys d = report_keys ∧ dict_get "error" d = None))) ∧
  (∀ e : exn, ∃ msg, handlers (Raise e) = Ok (error_dict msg)).
Proof.
  split; [|intros [msg|msg]; by eexists].
  rewrite _run_eq.
  destruct (yf_history lib ticker period) as [history|[msg|msg]];
    [|eexists; split; [done|left; by eexists]..].
  destruct (analysis lib ticker (mkFrame history ∅)) as [[d|[msg|msg]] h'] eqn:E;
    simpl; [|eexists; split; [done|left; by eexists]..].
  exists d. split; [done|].
  apply analysis_Ok in E as [[_ ->]|[(_ & _ & ->)|(_ & _ & Hr & _)]].
  - left. by eexists.
  - left. by eexists.
  - right. by apply report_value_keys in Hr.
Qed.

(** C2. When the provider returns a series of fewer than 50 bars, the
    empty series included, [_run] returns the insufficient-data error; when
    the series has 50 bars or more, whatever else happens, the result is not
    that error. *)
Theorem insufficient_data_boundary (lib : collaborators) (ticker period : string)
    (history : list bar) :
  yf_history lib ticker period = Ok history →
  (length history < 50 →
   _run lib ticker period = Ok (error_dict insufficient_data_msg)) ∧
  (50 ≤ length history →
   _run lib ticker period ≠ Ok (error_dict insufficient_data_msg)).
Proof.
  intros Hh. rewrite _run_eq, Hh. split; intros Hlen.
  - unfold analysis. rewrite bind_get_history.
    by rewrite (proj2 (insufficient_iff (mkFrame history ∅)) Hlen).
  - destruct (analysis lib ticker (mkFrame history ∅)) as [[d|[msg|msg]] h'] eqn:E;
      simpl; [|discriminate..].
    apply analysis_Ok in E as [[Hlt _]|[(_ & _ & ->)|(_ & _ & Hr & _)]].
    + simpl in Hlt. lia.
    + discriminate.
    + apply report_value_keys in Hr as [Hk _]. by intros [= ->].
Qed.

Lemma insufficient_data_boundary_witness :
  _run (pandas_ta_lib (flat_history 49 100)) "AAPL" "1y"
    = Ok (error_dict insufficient_data_msg) ∧
  _run (pandas_ta_lib []) "AAPL" "1y" = Ok (error_dict insufficient_data_msg) ∧
  _run (pandas_ta_lib (flat_history 50 100)) "AAPL" "1y"
    ≠ Ok (error_dict insufficient_data_msg).
Proof.
  split_and!.
  - apply (insufficient_data_boundary (pandas_ta_lib (flat_history 49 100))
             "AAPL" "1y" (flat_history 49 100)); [reflexivity|vm_compute; lia].
  - apply (insufficient_data_boundary (pandas_ta_lib []) "AAPL" "1y" []);
      [reflexivity|vm_compute; lia].
  - apply (insufficient_data_boundary (pandas_ta_lib (flat_history 50 100))
             "AAPL" "1y" (flat_history 50 100)); [reflexivity|vm_compute; lia].
Defined.

Lemma last_three_prices_eq (close_prices : list float) (extrema : list nat) :
  map (sample close_prices) (lastn 3 extrema) = last_three_prices close_prices extrema.
Proof.
  unfold last_three_prices.
  destruct (Nat.le_gt_cases 3 (length extrema)) as [Hlen|Hlen].
  - destruct (split_last3 _ Hlen) as (e & a & b & c & ->).
    rewrite rev_app_distr. simpl. unfold lastn. rewrite length_app. simpl.
    replace (length e + 3 - 3) with (length e + 0) by lia.
    by rewrite drop_app_add.
  - rewrite lastn_all by lia.
    destruct extrema as [|a [|b [|c ?]]]; simpl in *; try done. lia.
Qed.

Lemma last_three_prices_length (close_prices : list float) (extrema : list nat) :
  length (last_three_prices close_prices extrema) = min 3 (length extrema).
Proof. by rewrite <- last_three_prices_eq, length_map, lastn_length. Qed.

(** Five extrema give the prices of the last three; one gives its price. *)
Example levels_of_five :
  levels (prices [10; 11; 12; 13; 14; 15; 16]%Z) [1; 2; 4; 5; 6] = Ok (prices [14; 15; 16]%Z).
Proof. by vm_compute. Qed.

Example levels_of_one :
  levels (prices [10; 11; 12; 13; 14; 15; 16]%Z) [3] = Ok (prices [13]%Z).
Proof. by vm_compute. Qed.

(** C5. In every report that [_run] returns, [support_levels] holds the
    prices of the last three troughs in index order, or of all troughs, in
    index order, when fewer than three are detected, and [resistance_levels]
    the same over the peaks (extrema of the closes without missing values,
    which the detector lists by increasing index); each list has at most
    three elements, and with no trough (peak) detected the list is empty and
    the run still returns the report. *)
Theorem support_resistance_levels (lib : collaborators) (ticker period : string)
    (history : list bar) (d : dict) :
  yf_history lib ticker period = Ok history →
  _run lib ticker period = Ok d →
  keys d = report_keys →
  let close_prices := dropna (map Close history) in
  let troughs := find_peaks (negate close_prices) 20 in
  let peaks := find_peaks close_prices 20 in
  dict_get "support_levels" d = Some (VFloats (last_three_prices close_prices troughs)) ∧
  dict_get "resistance_levels" d = Some (VFloats (last_three_prices close_prices peaks)) ∧
  length (last_three_prices close_prices troughs) ≤ 3 ∧
  length (last_three_prices close_prices peaks) ≤ 3 ∧
  (troughs = [] → dict_get "support_levels" d = Some (VFloats [])) ∧
  (peaks = [] → dict_get "resistance_levels" d = Some (VFloats [])) ∧
  StronglySorted lt troughs ∧ StronglySorted lt peaks.
Proof.
  intros Hh Hrun Hkeys. rewrite _run_eq, Hh in Hrun.
  destruct (analysis lib ticker (mkFrame history ∅)) as [[d'|[msg|msg]] h'] eqn:E;
    simpl in Hrun; injection Hrun as <-; try discriminate.
  apply analysis_Ok in E as [[_ ->]|[(_ & _ & ->)|(_ & Hb & Hr & _)]]; try discriminate.
  apply report_value_Ok in Hr as (? & ? & ? & ? & ? & ? & ? & _ & ->).
  unfold column. rewrite Hb. cbn [bars]. cbv zeta.
  rewrite !last_three_prices_eq, !last_three_prices_length.
  split_and!; [done|done|lia|lia|by intros ->|by intros ->|..];
    apply find_peaks_increasing.
Qed.

Lemma support_resistance_levels_witness :
  dict_get "support_levels" (returned (_run (pandas_ta_lib fixture_history) "AAPL" "1y"))
    = Some (VFloats (prices [90; 90]%Z)) ∧
  dict_get "resistance_levels" (returned (_run (pandas_ta_lib fixture_history) "AAPL" "1y"))
    = Some (VFloats (prices [100; 120; 100]%Z)).
Proof.
  destruct (support_resistance_levels (pandas_ta_lib fixture_history) "AAPL" "1y"
              fixture_history
              (returned (_run (pandas_ta_lib fixture_history) "AAPL" "1y")))
    as (Hs & Hr & _); [reflexivity|by vm_compute|by vm_compute|].
  split; [rewrite Hs|rewrite Hr]; by vm_compute.
Defined.

(** ** The MACD columns *)

Lemma replicate_head {A : Type} (n : nat) (x : A) :
  0 < n → replicate n x !! 0 = Some x.
Proof. destruct n; [lia|done]. Qed.

(** C7, on the [pandas_ta] branch.  The three targets of the tuple
    assignment receive the column labels of the frame returned by
    [pta.macd], so [history['MACD_HIST']] holds a string at every bar, where
    the line and the signal are not null: the histogram is not the line minus
    the signal. *)
Theorem pandas_ta_macd_hist_not_difference (lib : collaborators) (h h' : frame) :
  indicators_pandas_ta lib h = (Ok (), h') →
  0 < length (bars h) →
  ¬ macd_hist_is_difference h'.
Proof.
  intros (? & ? & ? & cols & a & b & c & ? & _ & _ & ->)%indicators_pandas_ta_Ok Hn Hd.
  destruct (Hd (replicate (length (bars h)) (CStr a))
               (replicate (length (bars h)) (CStr b))
               (replicate (length (bars h)) (CStr c))
               0 (CStr a) (CStr b))
    as (? & ? & ? & [=] & _); simpl; try done;
    first [by simplify_map_eq | by apply replicate_head].
Qed.

Lemma pandas_ta_macd_hist_not_difference_witness :
  ¬ macd_hist_is_difference
      (snd (indicators_pandas_ta (pandas_ta_lib (flat_history 50 100))
              (mkFrame (flat_history 50 100) ∅))).
Proof.
  apply (pandas_ta_macd_hist_not_difference (pandas_ta_lib (flat_history 50 100))
           (mkFrame (flat_history 50 100) ∅)).
  - by vm_compute.
  - vm_compute. lia.
Defined.

(** The [ta] branch stores the three series of the [MACD] object. *)
Lemma ta_macd_columns (lib : collaborators) (h h' : frame) :
  indicators_ta lib h = (Ok (), h') →
  ∃ m, ta_MACD lib (map Close (bars h)) 26 12 9 = Ok m ∧
       derived h' !! "MACD" = Some (macd m) ∧
       derived h' !! "MACD_SIGNAL" = Some (macd_signal m) ∧
       derived h' !! "MACD_HIST" = Some (macd_diff m).
Proof.
  intros (? & ? & ? & m & ? & Hm & ->)%indicators_ta_Ok.
  exists m. simpl. split_and!; [done|by simplify_map_eq..].
Qed.

(** The report of the failing run: its [macd] field is a column label. *)
Example pandas_ta_report_macd :
  dict_get "macd" (returned (_run (pandas_ta_lib (flat_history 50 100)) "AAPL" "1y"))
  = Some (VCell (CStr "MACD_12_26_9")).
Proof. by vm_compute. Qed.

(** ** RSI *)

Lemma gain_nonneg (prev cur : Q) : (0 <= gain prev cur)%Q.
Proof.
  unfold gain. destruct (Qlt_bool prev cur) eqn:E; [|lra].
  apply Qlt_bool_iff in E. lra.
Qed.

Lemma loss_nonneg (prev cur : Q) : (0 <= loss prev cur)%Q.
Proof.
  unfold loss. destruct (Qlt_bool cur prev) eqn:E; [|lra].
  apply Qlt_bool_iff in E. lra.
Qed.

Lemma changes_nonneg (change : Q → Q → Q) (prev : Q) (xs : list Q) :
  (∀ p c, (0 <= change p c)%Q) → Forall (Qle 0) (changes change prev xs).
Proof.
  intros H. revert prev. induction xs as [|x rest IH]; intros prev; simpl;
    constructor; [apply H|apply IH].
Qed.

Lemma Qdiv_nonneg (a b : Q) : (0 <= a)%Q → (0 <= b)%Q → (0 <= a / b)%Q.
Proof.
  intros Ha Hb. unfold Qdiv. apply Qmult_le_0_compat; [done|].
  by apply Qinv_le_0_compat.
Qed.

Lemma Qnat_nonneg (n : nat) : (0 <= Qnat n)%Q.
Proof. unfold Qnat, Qle. simpl. lia. Qed.

Lemma Qsum_nonneg (l : list Q) : Forall (Qle 0) l → (0 <= Qsum l)%Q.
Proof.
  induction 1 as [|x l Hx _ IH]; simpl; [lra|]. lra.
Qed.

Lemma mean_nonneg (l : list Q) : Forall (Qle 0) l → (0 <= mean l)%Q.
Proof.
  intros H. unfold mean. apply Qdiv_nonneg; [by apply Qsum_nonneg|apply Qnat_nonneg].
Qed.

Lemma smooth_nonneg (n : nat) (avg : Q) (xs : list Q) :
  (0 <= avg)%Q → Forall (Qle 0) xs → Forall (Qle 0) (smooth n avg xs).
Proof.
  intros Havg Hxs. revert avg Havg.
  induction Hxs as [|x rest Hx _ IH]; intros avg Havg; simpl; [constructor|].
  assert (0 <= (avg * Qnat (n - 1) + x) / Qnat n)%Q as Hnext.
  { apply Qdiv_nonneg; [|apply Qnat_nonneg].
    pose proof (Qmult_le_0_compat _ _ Havg (Qnat_nonneg (n - 1))). lra. }
  constructor; [done|by apply IH].
Qed.

(** Every available value of a Wilder average of non-negative values is
    non-negative. *)
Lemma wilder_nonneg (n : nat) (xs : list Q) (j : nat) (g : Q) :
  Forall (Qle 0) xs → wilder n xs !! j = Some (Some g) → (0 <= g)%Q.
Proof.
  intros Hxs. unfold wilder.
  assert (Forall (λ o : option Q, ∀ v, o = Some v → (0 <= v)%Q)
            (replicate (n - 1) None ++
             Some (mean (take n xs)) ::
             map Some (smooth n (mean (take n xs)) (drop n xs)))) as Hall.
  { apply Forall_app. split; [by apply Forall_replicate|].
    assert (0 <= mean (take n xs))%Q as Hseed by by apply mean_nonneg, Forall_take.
    constructor; [by intros v [= <-]|].
    apply Forall_fmap. eapply Forall_impl; [apply smooth_nonneg; [done|by apply Forall_drop]|].
    simpl. by intros x Hx v [= <-]. }
  destruct (length xs <? n).
  - intros [[=] _]%lookup_replicate.
  - intros H. by apply (Forall_lookup_1 _ _ _ _ Hall H).
Qed.

Lemma rsi_value_range (avg_gain avg_loss : Q) :
  (0 <= avg_gain)%Q → (0 <= avg_loss)%Q →
  (0 <= rsi_value avg_gain avg_loss <= 100)%Q.
Proof.
  intros Hg Hl. unfold rsi_value.
  destruct (Qeq_bool avg_loss 0) eqn:E; [lra|].
  apply Qeq_bool_neq in E.
  pose proof (Qdiv_nonneg _ _ Hg Hl) as Hrs.
  set (rs := (avg_gain / avg_loss)%Q) in *.
  assert (0 <= 100 / (1 + rs))%Q as H1 by (apply Qdiv_nonneg; lra).
  assert (100 / (1 + rs) <= 100)%Q as H2 by (apply Qle_shift_div_r; lra).
  lra.
Qed.

(** C8. Every defined value of the RSI-14 series lies in the closed
    interval from 0 to 100: it is [100 - 100 / (1 + RS)] for [RS] the ratio
    of the Wilder averages of the gains and of the losses, both
    non-negative, and it is 100, with no division, when the average loss is
    zero. *)
Theorem rsi_in_range (close : list Q) (i : nat) (v : Q) :
  rsi 14 close !! i = Some (Some v) →
  (0 <= v <= 100)%Q ∧
  ∃ avg_gain avg_loss : Q,
    (0 <= avg_gain)%Q ∧ (0 <= avg_loss)%Q ∧
    v = rsi_value avg_gain avg_loss ∧
    ((avg_loss == 0)%Q → v = 100%Q) ∧
    (¬ (avg_loss == 0)%Q → v = (100 - 100 / (1 + avg_gain / avg_loss))%Q).
Proof.
  unfold rsi. destruct close as [|c0 rest]; [done|].
  destruct i as [|j]; [done|]. simpl.
  intros (g & l & Hv & Hg & Hl)%lookup_zip_with_Some.
  destruct g as [g|]; [|done]. destruct l as [l|]; [|done].
  injection Hv as ->.
  apply wilder_nonneg in Hg; [|apply changes_nonneg, gain_nonneg].
  apply wilder_nonneg in Hl; [|apply changes_nonneg, loss_nonneg].
  split; [by apply rsi_value_range|].
  exists g, l. split_and!; [done|done|done| |]; unfold rsi_value.
  - intros H%Qeq_bool_iff. by rewrite H.
  - intros H. destruct (Qeq_bool l 0) eqn:E; [|done].
    by apply Qeq_bool_iff in E.
Qed.

Lemma rsi_in_range_witness :
  rsi 14 [1; 2; 3; 2; 4; 5; 3; 6; 7; 5; 8; 9; 7; 10; 11; 9]%Q !! 15
    = Some (Some (4331600 # 66640))%Q ∧
  (0 <= 4331600 # 66640 <= 100)%Q.
Proof.
  split; [by vm_compute|].
  apply (rsi_in_range [1; 2; 3; 2; 4; 5; 3; 6; 7; 5; 8; 9; 7; 10; 11; 9]%Q 15).
  by vm_compute.
Defined.

(** * More properties of [_run] *)

Lemma getitem_last {A : Type} (a : list A) (x : A) :
  getitem a (-1)%Z = Ok x ↔ last a = Some x.
Proof.
  rewrite last_lookup. unfold getitem.
  destruct (Z.ltb_spec (-1) 0) as [_|?]; [|lia].
  destruct a as [|y a]; [by cbn|].
  destruct (Z.leb_spec 0 (Z.of_nat (length (y :: a)) + -1)) as [_|H];
    [|simpl in H; lia].
  destruct (Z.ltb_spec (Z.of_nat (length (y :: a)) + -1) (Z.of_nat (length (y :: a))))
    as [_|?]; [|lia].
  cbn [andb].
  replace (Z.to_nat (Z.of_nat (length (y :: a)) + -1)) with (pred (length (y :: a)))
    by (simpl; lia).
  destruct ((y :: a) !! pred (length (y :: a))) as [z|] eqn:E.
  - split; by intros [= ->].
  - apply lookup_ge_None in E. simpl in E. lia.
Qed.

Lemma current_value_latest (name : string) (series : list cell) :
  current_value name (Some series) = Ok (latest series).
Proof.
  unfold current_value, latest.
  destruct (forallb isnull series) eqn:E; [done|]. simpl.
  destruct (last series) as [x|] eqn:El.
  - by apply getitem_last.
  - apply last_None in El. by subst.
Qed.

Lemma indicators_ta_calls (lib : collaborators) (h h' : frame) :
  indicators_ta lib h = (Ok (), h') →
  ∃ sma_50 sma_200 rsi_ m atr,
    rolling_mean lib (map Close (bars h)) 50 = Ok sma_50 ∧
    rolling_mean lib (map Close (bars h)) 200 = Ok sma_200 ∧
    ta_RSIIndicator_rsi lib (map Close (bars h)) 14 = Ok rsi_ ∧
    ta_MACD lib (map Close (bars h)) 26 12 9 = Ok m ∧
    ta_AverageTrueRange lib (map High (bars h)) (map Low (bars h))
      (map Close (bars h)) 14 = Ok atr ∧
    h' = mkFrame (bars h)
           (<["ATR" := atr]>
              (<["MACD_HIST" := macd_diff m]>
                 (<["MACD_SIGNAL" := macd_signal m]>
                    (<["MACD" := macd m]>
                       (<["RSI" := rsi_]>
                          (<["SMA_200" := sma_200]>
                             (<["SMA_50" := sma_50]> (derived h)))))))).
Proof.
  unfold indicators_ta. intros H. steps_in H.
  unfold setitem in H. simpl in H. injection H as <-.
  eexists _, _, _, _, _. split_and!; by eauto.
Qed.

Lemma indicators_pandas_ta_calls (lib : collaborators) (h h' : frame) :
  indicators_pandas_ta lib h = (Ok (), h') →
  ∃ sma_50 sma_200 rsi_ cols a b c atr,
    pta_sma lib (map Close (bars h)) 50 = Ok sma_50 ∧
    pta_sma lib (map Close (bars h)) 200 = Ok sma_200 ∧
    pta_rsi lib (map Close (bars h)) 14 = Ok rsi_ ∧
    pta_macd lib (map Close (bars h)) 12 26 9 = Ok cols ∧
    unpack3 cols = Ok (a, b, c) ∧
    pta_atr lib (map High (bars h)) (map Low (bars h)) (map Close (bars h)) 14 = Ok atr ∧
    h' = mkFrame (bars h)
           (<["ATR" := stored (length (bars h)) atr]>
              (<["MACD_HIST" := replicate (length (bars h)) (CStr c)]>
                 (<["MACD_SIGNAL" := replicate (length (bars h)) (CStr b)]>
                    (<["MACD" := replicate (length (bars h)) (CStr a)]>
                       (<["RSI" := stored (length (bars h)) rsi_]>
                          (<["SMA_200" := stored (length (bars h)) sma_200]>
                             (<["SMA_50" := stored (length (bars h)) sma_50]>
                                (derived h)))))))).
Proof.
  unfold indicators_pandas_ta. intros H. steps_in H.
  rewrite setitem_opt_eq in H. simpl in H. injection H as <-.
  eexists _, _, _, _, _, _, _, _. split_and!; by eauto.
Qed.

(** What [report_value] computed when it returned [d]. *)
Lemma report_value_inv (ticker : string) (h : frame) (d : dict) :
  report_value ticker h = Ok d →
  ∃ current_price sma_50 sma_200 rsi_ macd_ atr patterns,
    getitem (column Close h) (-1)%Z = Ok current_price ∧
    current_value "SMA_50" (derived h !! "SMA_50") = Ok sma_50 ∧
    current_value "SMA_200" (derived h !! "SMA_200") = Ok sma_200 ∧
    current_value "RSI" (derived h !! "RSI") = Ok rsi_ ∧
    current_value "MACD" (derived h !! "MACD") = Ok macd_ ∧
    current_value "ATR" (derived h !! "ATR") = Ok atr ∧
    identify_chart_patterns h = Ok patterns ∧
    d = [("ticker", VCell (CStr ticker));
         ("current_price", VCell (CFloat current_price));
         ("sma_50", VCell sma_50);
         ("sma_200", VCell sma_200);
         ("rsi", VCell rsi_);
         ("macd", VCell macd_);
         ("atr", VCell atr);
         ("support_levels",
          VFloats (map (sample (dropna (column Close h)))
                       (lastn 3 (find_peaks (negate (dropna (column Close h))) 20))));
         ("resistance_levels",
          VFloats (map (sample (dropna (column Close h)))
                       (lastn 3 (find_peaks (dropna (column Close h)) 20))));
         ("identified_patterns", VStrs patterns)].
Proof.
  unfold report_value.
  rewrite (levels_in_range _ _ (find_troughs_bounds _ 20)).
  rewrite (levels_in_range _ _ (find_peaks_bounds _ 20)).
  intros H.
  repeat match type of H with
         | (?r ≫= _) = Ok _ =>
             destruct r eqn:?; cbn [mbind res_bind] in H; [|discriminate]
         end.
  injection H as <-. rewrite !tolist_id.
  eexists _, _, _, _, _, _, _. split_and!; by eauto.
Qed.

(** A run that returned a report: the branch taken and the frame reported. *)
Lemma run_report_inv (lib : collaborators) (ticker period : string)
    (history : list bar) (d : dict) :
  yf_history lib ticker period = Ok history →
  _run lib ticker period = Ok d →
  keys d = report_keys →
  ∃ h' b,
    50 ≤ length history ∧ _ta_backend lib = Some b ∧ bars h' = history ∧
    match b with
    | pandas_ta => indicators_pandas_ta lib (mkFrame history ∅) = (Ok (), h')
    | ta => indicators_ta lib (mkFrame history ∅) = (Ok (), h')
    end ∧
    report_value ticker h' = Ok d.
Proof.
  intros Hh Hrun Hkeys. rewrite _run_eq, Hh in Hrun.
  destruct (analysis lib ticker (mkFrame history ∅)) as [[d'|[msg|msg]] h'] eqn:E;
    simpl in Hrun; injection Hrun as <-; try discriminate.
  apply analysis_Ok in E
    as [[_ ->]|[(_ & _ & ->)|(Hlen & Hb & Hr & b & Hback & Hind)]]; try discriminate.
  exists h', b. by split_and!.
Qed.

Lemma analysis_early (lib : collaborators) (ticker : string) (h : frame) :
  (length (bars h) < 50 →
   analysis lib ticker h = (Ok (error_dict insufficient_data_msg), h)) ∧
  (50 ≤ length (bars h) → _ta_backend lib = None →
   analysis lib ticker h = (Ok (error_dict no_backend_msg), h)).
Proof.
  unfold analysis. rewrite bind_get_history.
  pose proof (insufficient_iff h) as Hlen.
  destruct (empty h || (length (bars h) <? 50)); split.
  - done.
  - intros Hge. assert (length (bars h) < 50) by by apply Hlen. lia.
  - intros Hlt. by apply Hlen in Hlt.
  - by intros _ ->.
Qed.

(** X1. Once the provider has returned a series, [_run] answers with the
    backend-unavailable error exactly when the series has at least 50 bars
    and neither indicator library was imported: the check of the data size
    comes first. *)
Theorem backend_unavailable_exactly (lib : collaborators) (ticker period : string)
    (history : list bar) :
  yf_history lib ticker period = Ok history →
  _run lib ticker period = Ok (error_dict no_backend_msg) ↔
  50 ≤ length history ∧ _ta_backend lib = None.
Proof.
  intros Hh. rewrite _run_eq, Hh. split.
  - destruct (analysis lib ticker (mkFrame history ∅)) as [[d|[msg|msg]] h'] eqn:E;
      simpl; [|discriminate..].
    apply analysis_Ok in E as [[_ ->]|[(Hlen & Hb & _)|(_ & _ & Hr & _)]].
    + discriminate.
    + done.
    + apply report_value_keys in Hr as [Hk _]. by intros [= ->].
  - intros [Hlen Hb].
    by rewrite (proj2 (analysis_early lib ticker (mkFrame history ∅)) Hlen Hb).
Qed.

Lemma backend_unavailable_exactly_witness :
  _run (with_backend None (pandas_ta_lib (flat_history 50 100))) "AAPL" "1y"
  = Ok (error_dict no_backend_msg).
Proof.
  apply (backend_unavailable_exactly
           (with_backend None (pandas_ta_lib (flat_history 50 100)))
           "AAPL" "1y" (flat_history 50 100)); [reflexivity|].
  split; [vm_compute; lia|reflexivity].
Defined.

(** X2. Whenever [_run] returns an error dictionary, its message is the
    insufficient-data message, the backend-unavailable message, the fixed
    index-error message, or "An unexpected error occurred: " followed by the
    text of the exception that was caught. *)
Theorem error_messages (lib : collaborators) (ticker period msg : string) :
  _run lib ticker period = Ok (error_dict msg) →
  msg = insufficient_data_msg ∨ msg = no_backend_msg ∨ msg = index_error_msg ∨
  ∃ e, msg = unexpected_msg e.
Proof.
  rewrite _run_eq.
  assert (∀ body : res dict,
            (∀ d, body = Ok d → d = error_dict msg →
                  msg = insufficient_data_msg ∨ msg = no_backend_msg) →
            handlers body = Ok (error_dict msg) →
            msg = insufficient_data_msg ∨ msg = no_backend_msg ∨
            msg = index_error_msg ∨ ∃ e, msg = unexpected_msg e) as Hh.
  { intros [d|[m|m]] Hd; simpl; intros [= H].
    - destruct (Hd d eq_refl H); tauto.
    - right. right. by left.
    - right. right. right. by exists m. }
  destruct (yf_history lib ticker period) as [history|e]; apply Hh.
  - intros d Hd ->.
    destruct (analysis lib ticker (mkFrame history ∅)) as [r h'] eqn:E.
    simpl in Hd. subst r.
    apply analysis_Ok in E as [[_ [= ->]]|[(_ & _ & [= ->])|(_ & _ & Hr & _)]];
      [tauto..|].
    by apply report_value_keys in Hr as [[=] _].
  - by intros d [=].
Qed.

Lemma error_messages_witness :
  index_error_msg = insufficient_data_msg ∨ index_error_msg = no_backend_msg ∨
  index_error_msg = index_error_msg ∨ ∃ e, index_error_msg = unexpected_msg e.
Proof.
  apply (error_messages
           (with_failing_provider (IndexError "positional indexer is out-of-bounds")
              (pandas_ta_lib []))
           "AAPL" "1y").
  reflexivity.
Defined.

(** X3. In every report that [_run] returns, the series had at least 50
    bars and an indicator library was available; [ticker] is the ticker
    that was passed in and [current_price] is the close of the last bar of
    the series, missing or not. *)
Theorem report_ticker_and_price (lib : collaborators) (ticker period : string)
    (history : list bar) (d : dict) :
  yf_history lib ticker period = Ok history →
  _run lib ticker period = Ok d →
  keys d = report_keys →
  50 ≤ length history ∧ is_Some (_ta_backend lib) ∧
  dict_get "ticker" d = Some (VCell (CStr ticker)) ∧
  ∃ b, last history = Some b ∧
       dict_get "current_price" d = Some (VCell (CFloat (Close b))).
Proof.
  intros Hh Hrun Hkeys.
  destruct (run_report_inv _ _ _ _ _ Hh Hrun Hkeys)
    as (h' & b & Hlen & Hback & Hb & _ & Hr).
  apply report_value_inv
    in Hr as (cp & ? & ? & ? & ? & ? & ? & Hcp & _ & _ & _ & _ & _ & _ & ->).
  split_and!; [done|by rewrite Hback|done|].
  apply getitem_last in Hcp. unfold column in Hcp. rewrite Hb in Hcp.
  rewrite fmap_last in Hcp.
  destruct (last history) as [lastbar|]; [|done].
  injection Hcp as <-. by exists lastbar.
Qed.

Lemma report_ticker_and_price_witness :
  dict_get "ticker" (returned (_run (pandas_ta_lib fixture_history) "AAPL" "1y"))
    = Some (VCell (CStr "AAPL")) ∧
  ∃ b, last fixture_history = Some b ∧
       dict_get "current_price" (returned (_run (pandas_ta_lib fixture_history) "AAPL" "1y"))
       = Some (VCell (CFloat (Close b))).
Proof.
  destruct (report_ticker_and_price (pandas_ta_lib fixture_history) "AAPL" "1y"
              fixture_history
              (returned (_run (pandas_ta_lib fixture_history) "AAPL" "1y")))
    as (_ & _ & Ht & Hp); [reflexivity|by vm_compute|by vm_compute|].
  by split.
Defined.

Lemma latest_stored (rows : nat) (value : option (list cell)) :
  latest (stored rows value) = latest_opt value.
Proof.
  destruct value as [series|]; [done|]. simpl. unfold latest.
  assert (forallb isnull (replicate rows CNone) = true) as ->; [|done].
  by induction rows.
Qed.

Lemma latest_replicate_str (rows : nat) (s : string) :
  0 < rows → latest (replicate rows (CStr s)) = CStr s.
Proof.
  intros H. unfold latest. destruct rows as [|n]; [lia|]. simpl.
  rewrite last_cons. clear H. destruct n as [|n]; [done|].
  by rewrite replicate_S_end, last_snoc.
Qed.

Ltac read_column C :=
  cbn [derived] in C;
  repeat (rewrite lookup_insert_ne in C by done);
  rewrite lookup_insert_eq, current_value_latest in C;
  injection C as <-.

(** X4. On the [ta] branch, each indicator of a report is the latest value
    of the series the library returned for the closes (highs, lows) of the
    series: [None] when every cell of that series is null, otherwise its
    last cell, and reading it never raises. *)
Theorem ta_report_indicators (lib : collaborators) (ticker period : string)
    (history : list bar) (d : dict) :
  yf_history lib ticker period = Ok history →
  _ta_backend lib = Some ta →
  _run lib ticker period = Ok d →
  keys d = report_keys →
  ∃ sma_50 sma_200 rsi_ m atr,
    rolling_mean lib (map Close history) 50 = Ok sma_50 ∧
    rolling_mean lib (map Close history) 200 = Ok sma_200 ∧
    ta_RSIIndicator_rsi lib (map Close history) 14 = Ok rsi_ ∧
    ta_MACD lib (map Close history) 26 12 9 = Ok m ∧
    ta_AverageTrueRange lib (map High history) (map Low history)
      (map Close history) 14 = Ok atr ∧
    dict_get "sma_50" d = Some (VCell (latest sma_50)) ∧
    dict_get "sma_200" d = Some (VCell (latest sma_200)) ∧
    dict_get "rsi" d = Some (VCell (latest rsi_)) ∧
    dict_get "macd" d = Some (VCell (latest (macd m))) ∧
    dict_get "atr" d = Some (VCell (latest atr)).
Proof.
  intros Hh Hta Hrun Hkeys.
  destruct (run_report_inv _ _ _ _ _ Hh Hrun Hkeys)
    as (h' & b & _ & Hback & _ & Hind & Hr).
  rewrite Hta in Hback. injection Hback as <-.
  apply indicators_ta_calls
    in Hind as (s50 & s200 & r & m & a & H1 & H2 & H3 & H4 & H5 & ->).
  apply report_value_inv
    in Hr as (? & ? & ? & ? & ? & ? & ? & _ & C1 & C2 & C3 & C4 & C5 & _ & ->).
  clear Hrun Hkeys. read_column C1. read_column C2. read_column C3.
  read_column C4. read_column C5.
  by exists s50, s200, r, m, a.
Qed.

Lemma ta_report_indicators_witness :
  dict_get "sma_50" (returned (_run (ta_lib fixture_history) "AAPL" "1y"))
    = Some (VCell (CFloat (Fin 90))) ∧
  dict_get "sma_200" (returned (_run (ta_lib fixture_history) "AAPL" "1y"))
    = Some (VCell CNone).
Proof.
  destruct (ta_report_indicators (ta_lib fixture_history) "AAPL" "1y" fixture_history
              (returned (_run (ta_lib fixture_history) "AAPL" "1y")))
    as (s50 & s200 & ? & ? & ? & H1 & H2 & _ & _ & _ & D1 & D2 & _);
    [reflexivity|reflexivity|by vm_compute|by vm_compute|].
  injection H1 as <-. injection H2 as <-.
  rewrite D1, D2. by vm_compute.
Defined.

(** X5. On the [pandas_ta] branch, [sma_50], [sma_200], [rsi] and [atr] of
    a report are the latest values of what the library returned; where it
    returned [None], as it does for a series shorter than the window, the
    report holds [None] and the run does not fail. *)
Theorem pandas_ta_report_indicators (lib : collaborators) (ticker period : string)
    (history : list bar) (d : dict) :
  yf_history lib ticker period = Ok history →
  _ta_backend lib = Some pandas_ta →
  _run lib ticker period = Ok d →
  keys d = report_keys →
  ∃ sma_50 sma_200 rsi_ atr,
    pta_sma lib (map Close history) 50 = Ok sma_50 ∧
    pta_sma lib (map Close history) 200 = Ok sma_200 ∧
    pta_rsi lib (map Close history) 14 = Ok rsi_ ∧
    pta_atr lib (map High history) (map Low history) (map Close history) 14 = Ok atr ∧
    dict_get "sma_50" d = Some (VCell (latest_opt sma_50)) ∧
    dict_get "sma_200" d = Some (VCell (latest_opt sma_200)) ∧
    dict_get "rsi" d = Some (VCell (latest_opt rsi_)) ∧
    dict_get "atr" d = Some (VCell (latest_opt atr)).
Proof.
  intros Hh Hpta Hrun Hkeys.
  destruct (run_report_inv _ _ _ _ _ Hh Hrun Hkeys)
    as (h' & b & _ & Hback & _ & Hind & Hr).
  rewrite Hpta in Hback. injection Hback as <-.
  apply indicators_pandas_ta_calls
    in Hind as (s50 & s200 & r & cols & ? & ? & ? & a & H1 & H2 & H3 & _ & _ & H5 & ->).
  apply report_value_inv
    in Hr as (? & ? & ? & ? & ? & ? & ? & _ & C1 & C2 & C3 & _ & C5 & _ & ->).
  clear Hrun Hkeys. read_column C1. read_column C2. read_column C3. read_column C5.
  rewrite !latest_stored. by exists s50, s200, r, a.
Qed.

Lemma pandas_ta_report_indicators_witness :
  dict_get "sma_50"
    (returned (_run (with_short_sma (pandas_ta_lib fixture_history)) "AAPL" "1y"))
    = Some (VCell (CFloat (Fin 0))) ∧
  dict_get "sma_200"
    (returned (_run (with_short_sma (pandas_ta_lib fixture_history)) "AAPL" "1y"))
    = Some (VCell CNone).
Proof.
  destruct (pandas_ta_report_indicators (with_short_sma (pandas_ta_lib fixture_history))
              "AAPL" "1y" fixture_history
              (returned (_run (with_short_sma (pandas_ta_lib fixture_history)) "AAPL" "1y")))
    as (s50 & s200 & ? & ? & H1 & H2 & _ & _ & D1 & D2 & _);
    [reflexivity|reflexivity|by vm_compute|by vm_compute|].
  injection H1 as <-. injection H2 as <-.
  rewrite D1, D2. by vm_compute.
Defined.

Ltac step_goal :=
  first [ rewrite bind_read | rewrite bind_get_history
        | rewrite bind_current | rewrite bind_lift
        | rewrite bind_setitem | rewrite bind_setitem_scalar
        | rewrite bind_setitem_opt ];
  cbv beta zeta; unfold column; cbn [bars derived].

(** X6. On the [pandas_ta] branch, when [pta.macd] returns something that
    does not unpack into three names ([None], or a frame with another
    number of columns), [_run] returns the error dictionary of the unpacking
    failure, although the moving averages and the RSI were computed. *)
Theorem pandas_ta_macd_unpack_failure (lib : collaborators) (ticker period : string)
    (history : list bar) (sma_50 sma_200 rsi_ : option (list cell))
    (cols : option (list (string * list cell))) (e : exn) :
  yf_history lib ticker period = Ok history →
  50 ≤ length history →
  _ta_backend lib = Some pandas_ta →
  pta_sma lib (map Close history) 50 = Ok sma_50 →
  pta_sma lib (map Close history) 200 = Ok sma_200 →
  pta_rsi lib (map Close history) 14 = Ok rsi_ →
  pta_macd lib (map Close history) 12 26 9 = Ok cols →
  unpack3 cols = Raise e →
  _run lib ticker period = Ok (error_of e).
Proof.
  intros Hh Hlen Hb H1 H2 H3 H4 H5. rewrite _run_eq, Hh.
  unfold analysis. rewrite bind_get_history.
  destruct (empty (mkFrame history ∅) || (length (bars (mkFrame history ∅)) <? 50))
    eqn:E; [apply insufficient_iff in E; simpl in E; lia|].
  rewrite Hb, M_bind_eq. unfold indicators_pandas_ta.
  step_goal. step_goal. rewrite H1. step_goal.
  step_goal. step_goal. rewrite H2. step_goal.
  step_goal. step_goal. rewrite H3. step_goal.
  step_goal. step_goal. rewrite H4. step_goal. rewrite H5.
  by destruct e.
Qed.

Lemma pandas_ta_macd_unpack_failure_witness :
  _run (with_backend (Some pandas_ta) (ta_lib fixture_history)) "AAPL" "1y"
  = Ok (error_dict
          (unexpected_msg "cannot unpack non-iterable NoneType object")).
Proof.
  eapply (pandas_ta_macd_unpack_failure
            (with_backend (Some pandas_ta) (ta_lib fixture_history)) "AAPL" "1y"
            fixture_history _ _ _ None
            (OtherException "cannot unpack non-iterable NoneType object"));
    try reflexivity.
  vm_compute. lia.
Defined.

(** ** More on the patterns and the levels *)

Lemma Qdiv_nonneg_neg (x a : Q) : (0 <= x)%Q → (a < 0)%Q → (x / a <= 0)%Q.
Proof.
  intros Hx Ha.
  assert (x / a == - (x / - a))%Q as -> by (field; lra).
  assert (0 <= x / - a)%Q by (apply Qdiv_nonneg; lra).
  lra.
Qed.

(** X7. The relative difference of the double-top test is signed by the
    earlier price: when the earlier of the last two peaks has price zero the
    pattern is never reported (the quotient is not a finite number, and
    nothing is raised), and when it has a negative price the pattern is
    always reported, however far apart the two peaks are. *)
Theorem double_top_sign_of_earlier_price (close : list float)
    (earlier : list nat) (first last : nat) (a b : Q) :
  find_peaks close 20 = earlier ++ [first; last] →
  close !! first = Some (Fin a) →
  close !! last = Some (Fin b) →
  ((a == 0)%Q → is_double_top close = Ok false) ∧
  ((a < 0)%Q → is_double_top close = Ok true).
Proof.
  intros Hp Ha Hb.
  destruct (is_double_top_total close) as (r & -> & Hr).
  assert (DoubleTop_rule close ↔ ¬ (a == 0)%Q ∧ (Qabs (b - a) / a < 3 # 100)%Q) as Hrule.
  { unfold DoubleTop_rule, within_3_percent. rewrite Hp. split.
    - intros (e' & f' & l' & a' & b' & Heq & Ha' & Hb' & H).
      change [first; last] with ([first] ++ [last]) in Heq.
      change [f'; l'] with ([f'] ++ [l']) in Heq.
      rewrite !app_assoc in Heq. apply app_inj_tail in Heq as [Heq <-].
      apply app_inj_tail in Heq as [_ <-].
      rewrite Ha in Ha'. rewrite Hb in Hb'. by simplify_eq.
    - intros H. by exists earlier, first, last, a, b. }
  split; intros H0.
  - destruct r; [|done].
    pose proof (proj1 Hrule (proj1 Hr eq_refl)) as [Hne _]. done.
  - destruct r; [done|].
    assert (false = true) as [=]. apply Hr, Hrule. split; [lra|].
    pose proof (Qdiv_nonneg_neg (Qabs (b - a)) a (Qabs_nonneg _) H0). lra.
Qed.

Lemma double_top_sign_of_earlier_price_witness :
  is_double_top (fixture_two_peaks_over (-200) (-100) (-10)) = Ok true ∧
  is_double_top (fixture_two_peaks_over (-50) 0 100) = Ok false.
Proof.
  split.
  - apply (double_top_sign_of_earlier_price
             (fixture_two_peaks_over (-200) (-100) (-10)) [] 10 40 (-100) (-10));
      by vm_compute.
  - apply (double_top_sign_of_earlier_price
             (fixture_two_peaks_over (-50) 0 100) [] 10 40 0 100);
      by vm_compute.
Defined.

Lemma dropna_spec (s : list float) (x : float) :
  x ∈ dropna s ↔ x ∈ s ∧ isnan x = false.
Proof.
  unfold dropna. rewrite !list_elem_of_In, filter_In.
  destruct (isnan x); simpl; intuition congruence.
Qed.

Lemma dropna_id (s : list float) :
  Forall (λ x, isnan x = false) s → dropna s = s.
Proof.
  induction 1 as [|x s Hx _ IH]; [done|]. simpl. by rewrite Hx, IH.
Qed.

Lemma lastn_elem_of {A : Type} (k : nat) (a : list A) (x : A) :
  x ∈ lastn k a → x ∈ a.
Proof.
  unfold lastn. intros H. rewrite <- (take_drop (length a - k) a).
  apply elem_of_app. by right.
Qed.

Lemma levels_from_series (s : list float) (extrema : list nat) :
  Forall (λ i, i < length (dropna s)) extrema →
  Forall (λ x, isnan x = false ∧ x ∈ s)
         (map (sample (dropna s)) (lastn 3 extrema)).
Proof.
  intros H. rewrite Forall_forall in H.
  apply Forall_fmap, Forall_forall. intros i Hi%lastn_elem_of. simpl.
  destruct (lookup_lt_is_Some_2 _ _ (H i Hi)) as [x Hx].
  unfold sample. rewrite Hx. simpl.
  apply list_elem_of_lookup_2, dropna_spec in Hx. tauto.
Qed.

(** X8. The support and resistance levels of a report are closes of the
    series and are never missing values: each level is a close of some bar
    and is a number. *)
Theorem levels_are_closes (lib : collaborators) (ticker period : string)
    (history : list bar) (d : dict) :
  yf_history lib ticker period = Ok history →
  _run lib ticker period = Ok d →
  keys d = report_keys →
  ∃ support resistance,
    dict_get "support_levels" d = Some (VFloats support) ∧
    dict_get "resistance_levels" d = Some (VFloats resistance) ∧
    Forall (λ x, isnan x = false ∧ x ∈ map Close history) (support ++ resistance).
Proof.
  intros Hh Hrun Hkeys.
  destruct (run_report_inv _ _ _ _ _ Hh Hrun Hkeys) as (h' & b & _ & _ & Hb & _ & Hr).
  apply report_value_inv
    in Hr as (? & ? & ? & ? & ? & ? & ? & _ & _ & _ & _ & _ & _ & _ & ->).
  unfold column. rewrite Hb. eexists _, _. split_and!; [done|done|].
  apply Forall_app. split; apply levels_from_series.
  - pose proof (find_peaks_bounds (negate (dropna (map Close history))) 20) as H.
    unfold negate in H at 1. by rewrite length_map in H.
  - apply find_peaks_bounds.
Qed.

Lemma levels_are_closes_witness :
  ∃ support resistance,
    dict_get "support_levels" (returned (_run (ta_lib fixture_history) "AAPL" "1y"))
      = Some (VFloats support) ∧
    dict_get "resistance_levels" (returned (_run (ta_lib fixture_history) "AAPL" "1y"))
      = Some (VFloats resistance) ∧
    Forall (λ x, isnan x = false ∧ x ∈ map Close fixture_history)
           (support ++ resistance).
Proof.
  apply (levels_are_closes (ta_lib fixture_history) "AAPL" "1y" fixture_history);
    [reflexivity|by vm_compute|by vm_compute].
Defined.

Lemma lastn_app3 {A : Type} (e : list A) (a b c : A) :
  lastn 3 (e ++ [a; b; c]) = [a; b; c].
Proof.
  unfold lastn. rewrite length_app. simpl.
  replace (length e + 3 - 3) with (length e + 0) by lia.
  by rewrite drop_app_add.
Qed.

(** X9. When the closes of the series have no missing value and a report
    lists "Head and Shoulders", the report has exactly three resistance
    levels, the prices of the left shoulder, the head and the right
    shoulder, and the middle one is strictly the greatest. *)
Theorem head_and_shoulders_resistance (lib : collaborators) (ticker period : string)
    (history : list bar) (d : dict) (patterns : list string) :
  yf_history lib ticker period = Ok history →
  Forall (λ b, isnan (Close b) = false) history →
  _run lib ticker period = Ok d →
  keys d = report_keys →
  dict_get "identified_patterns" d = Some (VStrs patterns) →
  "Head and Shoulders" ∈ patterns →
  ∃ l h r : Q,
    dict_get "resistance_levels" d = Some (VFloats [Fin l; Fin h; Fin r]) ∧
    (l < h)%Q ∧ (r < h)%Q.
Proof.
  intros Hh Hnan Hrun Hkeys Hpat Hin.
  destruct (run_report_inv _ _ _ _ _ Hh Hrun Hkeys) as (h' & b & _ & _ & Hb & _ & Hr).
  apply report_value_inv
    in Hr as (? & ? & ? & ? & ? & ? & ps & _ & _ & _ & _ & _ & _ & Hps & ->).
  injection Hpat as <-.
  destruct (identify_chart_patterns_total h') as (ps' & Hps' & _ & _ & Hrule & _).
  rewrite Hps in Hps'. injection Hps' as <-.
  apply Hrule in Hin as (e & il & ih & ir & Hpeaks & Hl & Hr).
  unfold column in *. rewrite Hb in *.
  rewrite (dropna_id (map Close history)) by by apply Forall_fmap.
  rewrite Hpeaks, lastn_app3.
  destruct Hl as (ah & al & Hah & Hal & Hlt).
  destruct Hr as (ah' & ar & Hah' & Har & Hlt').
  rewrite Hah in Hah'. injection Hah' as <-.
  exists al, ah, ar. simpl. unfold sample. by rewrite Hal, Hah, Har.
Qed.

Lemma head_and_shoulders_resistance_witness :
  ∃ l h r : Q,
    dict_get "resistance_levels"
      (returned (_run (pandas_ta_lib fixture_history) "AAPL" "1y"))
      = Some (VFloats [Fin l; Fin h; Fin r]) ∧
    (l < h)%Q ∧ (r < h)%Q.
Proof.
  apply (head_and_shoulders_resistance (pandas_ta_lib fixture_history)
           "AAPL" "1y" fixture_history _ ["Head and Shoulders"; "Double Bottom"]).
  - reflexivity.
  - repeat constructor.
  - by vm_compute.
  - by vm_compute.
  - by vm_compute.
  - left.
Defined.

Lemma identify_chart_patterns_bars (h1 h2 : frame) :
  bars h1 = bars h2 → identify_chart_patterns h1 = identify_chart_patterns h2.
Proof. intros H. unfold identify_chart_patterns, column. by rewrite H. Qed.

(** X10. The fields of a report that come from the extrema do not depend
    on the indicator libraries: two runs over the same series, whichever
    backend is active and whatever the libraries return, agree on [ticker],
    [current_price], [support_levels], [resistance_levels] and
    [identified_patterns] whenever both return a report. *)
Theorem extrema_fields_backend_independent (lib1 lib2 : collaborators)
    (ticker period : string) (history : list bar) (d1 d2 : dict) :
  yf_history lib1 ticker period = Ok history →
  yf_history lib2 ticker period = Ok history →
  _run lib1 ticker period = Ok d1 →
  _run lib2 ticker period = Ok d2 →
  keys d1 = report_keys →
  keys d2 = report_keys →
  dict_get "ticker" d1 = dict_get "ticker" d2 ∧
  dict_get "current_price" d1 = dict_get "current_price" d2 ∧
  dict_get "support_levels" d1 = dict_get "support_levels" d2 ∧
  dict_get "resistance_levels" d1 = dict_get "resistance_levels" d2 ∧
  dict_get "identified_patterns" d1 = dict_get "identified_patterns" d2.
Proof.
  intros Hh1 Hh2 Hrun1 Hrun2 Hk1 Hk2.
  destruct (run_report_inv _ _ _ _ _ Hh1 Hrun1 Hk1) as (h1 & ? & _ & _ & Hb1 & _ & Hr1).
  destruct (run_report_inv _ _ _ _ _ Hh2 Hrun2 Hk2) as (h2 & ? & _ & _ & Hb2 & _ & Hr2).
  apply report_value_inv
    in Hr1 as (? & ? & ? & ? & ? & ? & ? & Hc1 & _ & _ & _ & _ & _ & Hp1 & ->).
  apply report_value_inv
    in Hr2 as (? & ? & ? & ? & ? & ? & ? & Hc2 & _ & _ & _ & _ & _ & Hp2 & ->).
  rewrite (identify_chart_patterns_bars h1 h2) in Hp1 by congruence.
  unfold column in *. rewrite Hb1 in *. rewrite Hb2 in *.
  rewrite Hc1 in Hc2. rewrite Hp1 in Hp2. by simplify_eq.
Qed.

Lemma extrema_fields_backend_independent_witness :
  dict_get "support_levels" (returned (_run (pandas_ta_lib fixture_history) "AAPL" "1y"))
  = dict_get "support_levels" (returned (_run (ta_lib fixture_history) "AAPL" "1y")) ∧
  dict_get "identified_patterns"
    (returned (_run (pandas_ta_lib fixture_history) "AAPL" "1y"))
  = dict_get "identified_patterns" (returned (_run (ta_lib fixture_history) "AAPL" "1y")).
Proof.
  destruct (extrema_fields_backend_independent
              (pandas_ta_lib fixture_history) (ta_lib fixture_history)
              "AAPL" "1y" fixture_history
              (returned (_run (pandas_ta_lib fixture_history) "AAPL" "1y"))
              (returned (_run (ta_lib fixture_history) "AAPL" "1y")))
    as (_ & _ & Hs & _ & Hp);
    [reflexivity|reflexivity|by vm_compute..|].
  by split.
Defined.

(** * The callers *)

Lemma io_bind_eq {A B : Type} (m : IO A) (k : A → IO B) (log : list event) :
  (m ≫= k) log = match m log with
                 | (Ok a, log') => k a log'
                 | (Raise e, log') => (Raise e, log')
                 end.
Proof. done. Qed.

Lemma io_bind_call {A B : Type} (r : res A) (k : A → IO B) (log : list event) :
  (call r ≫= k) log = match r with Ok a => k a log | Raise e => (Raise e, log) end.
Proof. by destruct r. Qed.


Lemma io_bind_print {B : Type} (text : string) (k : unit → IO B) (log : list event) :
  (print text ≫= k) log = k () (log ++ [Printed text]).
Proof. done. Qed.

Lemma sentiment_eq (ag : agents) (stock_symbol : string) (log : list event) :
  sentiment ag stock_symbol log = (Ok (summary_of (reddit_run ag stock_symbol)), log).
Proof.
  unfold sentiment, try_except. rewrite io_bind_call.
  by destruct (reddit_run ag stock_symbol).
Qed.

Lemma io_bind_sentiment {B : Type} (ag : agents) (stock_symbol : string)
    (k : string → IO B) (log : list event) :
  (sentiment ag stock_symbol ≫= k) log = k (summary_of (reddit_run ag stock_symbol)) log.
Proof. by rewrite io_bind_eq, sentiment_eq. Qed.

Lemma _run_total (lib : collaborators) (ticker period : string) :
  ∃ d, _run lib ticker period = Ok d.
Proof.
  unfold _run.
  destruct (yf_history lib ticker period ≫= _) as [d|[msg|msg]]; by eexists.
Qed.

(** X11. Neither the technical-analysis tool nor the Reddit tool can make
    [run_analysis] fail: when the model and the tools are constructed, the
    model answers every prompt and the fundamental tool returns,
    [run_analysis] returns the one-key dictionary holding the model's answer
    to the final prompt, in which a failure of the Reddit tool shows as
    "Reddit sentiment data unavailable". *)
Theorem run_analysis_survives_tools (lib : collaborators) (ag : agents)
    (stock_symbol fundamental_data : string) (log : list event) :
  new_llm ag = Ok () →
  new_tools ag = Ok () →
  (∀ prompt, ∃ answer, llm_invoke ag prompt = Ok answer) →
  fundamental_run ag stock_symbol = Ok fundamental_data →
  ∃ tech_data research tech fundamental final,
    _run lib stock_symbol "1y" = Ok tech_data ∧
    llm_invoke ag (research_prompt stock_symbol) = Ok research ∧
    llm_invoke ag (tech_prompt stock_symbol (str_dict ag tech_data)) = Ok tech ∧
    llm_invoke ag (fundamental_prompt stock_symbol fundamental_data) = Ok fundamental ∧
    llm_invoke ag (final_prompt stock_symbol research tech fundamental
                     (summary_of (reddit_run ag stock_symbol))) = Ok final ∧
    fst (run_analysis lib ag stock_symbol log) = Ok [("report", VCell (CStr final))].
Proof.
  intros Hllm Htools Hanswer Hfund.
  destruct (_run_total lib stock_symbol "1y") as [tech_data Htech].
  destruct (Hanswer (research_prompt stock_symbol)) as [research Hr].
  destruct (Hanswer (tech_prompt stock_symbol (str_dict ag tech_data))) as [tech Ht].
  destruct (Hanswer (fundamental_prompt stock_symbol fundamental_data))
    as [fundamental Hf].
  destruct (Hanswer (final_prompt stock_symbol research tech fundamental
                       (summary_of (reddit_run ag stock_symbol)))) as [final Hfinal].
  exists tech_data, research, tech, fundamental, final.
  split_and!; [done..|].
  unfold run_analysis.
  rewrite io_bind_call, Hllm, io_bind_call, Htools, !io_bind_print.
  rewrite io_bind_call, Hr, io_bind_print, io_bind_call, Htech.
  rewrite io_bind_call, Ht, io_bind_print, io_bind_call, Hfund.
  rewrite io_bind_call, Hf, io_bind_print, io_bind_sentiment, io_bind_print.
  by rewrite io_bind_call, Hfinal.
Qed.

Lemma run_analysis_survives_tools_witness :
  fst (run_analysis (pandas_ta_lib []) quiet_agents "AAPL" [])
  = Ok [("report", VCell (CStr "Hold"))].
Proof.
  destruct (run_analysis_survives_tools (pandas_ta_lib []) quiet_agents "AAPL" "{}" [])
    as (? & ? & ? & ? & final & _ & _ & _ & _ & Hfinal & Hrun);
    [reflexivity|reflexivity|by intros; eexists|reflexivity|].
  injection Hfinal as <-. exact Hrun.
Defined.



(** * The budgeting calculator *)

Lemma Qlt_bool_false (x y : Q) : Qlt_bool x y = false ↔ (y <= x)%Q.
Proof.
  destruct (Qlt_bool x y) eqn:E.
  - apply Qlt_bool_iff in E. split; [done|]. intros H. lra.
  - split; [|done]. intros _. apply Qnot_lt_le. intros H%Qlt_bool_iff. congruence.
Qed.

(** For a positive income, the rate is below [c] percent exactly when a
    hundred times the savings are below [c] times the income. *)
Lemma rate_below (savings income c : Q) :
  (0 < income)%Q →
  (savings / income * 100 < c)%Q ↔ (savings * 100 < c * income)%Q.
Proof.
  intros Hi.
  assert (savings / income * 100 == savings * 100 / income)%Q as -> by (field; lra).
  split; intros H.
  - apply Qnot_le_lt. intros Hle. apply (Qle_shift_div_l _ _ _ Hi) in Hle. lra.
  - by apply Qlt_shift_div_r.
Qed.

Lemma rate_above (savings income c : Q) :
  (0 < income)%Q →
  (c < savings / income * 100)%Q ↔ (c * income < savings * 100)%Q.
Proof.
  intros Hi.
  assert (savings / income * 100 == savings * 100 / income)%Q as -> by (field; lra).
  split; intros H.
  - apply Qnot_le_lt. intros Hle. apply (Qle_shift_div_r _ _ _ Hi) in Hle. lra.
  - by apply Qlt_shift_div_l.
Qed.

(** X13. For an income and expenses that are not negative, the calculator
    shows the deficit card exactly when the expenses exceed the income, with
    the positive amount by which they do; otherwise it shows the savings
    with a rate between 0 and 100 percent, which is 0, with no division,
    when the income is zero. *)
Theorem budget_card_cases (income expenses : Q) :
  (0 <= income)%Q → (0 <= expenses)%Q →
  ((income < expenses)%Q →
   budgeting_section income expenses = BudgetDeficit (- (income - expenses)) ∧
   (0 < - (income - expenses))%Q) ∧
  ((expenses <= income)%Q →
   ∃ rate advice color,
     budgeting_section income expenses
       = MonthlySavings (income - expenses) rate advice color ∧
     (0 <= rate <= 100)%Q ∧
     ((income == 0)%Q → rate = 0%Q) ∧
     ((0 < income)%Q → rate = ((income - expenses) / income * 100)%Q)).
Proof.
  intros Hi He. unfold budgeting_section. split; intros H.
  - assert (Qlt_bool (income - expenses) 0 = true) as -> by (apply Qlt_bool_iff; lra).
    split; [done|lra].
  - assert (Qlt_bool (income - expenses) 0 = false) as -> by (apply Qlt_bool_false; lra).
    set (rate := if Qlt_bool 0 income then _ else _).
    assert ((0 <= rate <= 100)%Q ∧ ((income == 0)%Q → rate = 0%Q) ∧
            ((0 < income)%Q → rate = ((income - expenses) / income * 100)%Q)) as Hrate.
    { subst rate. destruct (Qlt_bool 0 income) eqn:E.
      - apply Qlt_bool_iff in E. split_and!; [| |intros H0; lra|done].
        + apply Qnot_lt_le. intros Hlt. apply rate_below in Hlt; [lra|done].
        + apply Qnot_lt_le. intros Hlt. apply rate_above in Hlt; [lra|done].
      - apply Qlt_bool_false in E. split_and!; [lra|lra|done|intros; lra]. }
    destruct (Qlt_bool rate 10); [|destruct (Qlt_bool rate 20)]; by eexists _, _, _.
Qed.

Lemma budget_card_cases_witness :
  budgeting_section 3000 5000 = BudgetDeficit (- (3000 - 5000)) ∧
  ∃ rate advice color,
    budgeting_section 0 0 = MonthlySavings (0 - 0) rate advice color ∧ rate = 0%Q.
Proof.
  split.
  - apply (budget_card_cases 3000 5000); by vm_compute.
  - destruct (budget_card_cases 0 0) as [_ H]; [by vm_compute..|].
    destruct H as (rate & advice & color & Hb & _ & H0 & _); [by vm_compute|].
    exists rate, advice, color. split; [done|]. by apply H0.
Defined.



